(** * unlicense: the Frida process-control bridge ([unlicense/frida_exec.py])

    A shallow embedding of [FridaProcessController], [_str_to_architecture]
    and [_frida_callback], and the properties of the bridge stated over it.

    Python values that cross the instrumentation channel are JSON-like and
    are embedded as [pyval]; Python exceptions are embedded as [exn];
    effectful code runs in a state-and-exception monad over a [World] that
    holds the injected agent, the driver's own state, the controller's
    export cache, the heap of mapping objects and a trace of every
    observable action (remote call, log record, notification). *)

From Stdlib Require Import ZArith Lia List Ascii String Bool.
From Stdlib Require Strings.Byte.
From stdpp Require Import base option list gmap.
Import ListNotations.

Set Warnings "-register-all,-clear-no-such-hyp".

Local Open Scope string_scope.
Local Open Scope list_scope.
Local Open Scope Z_scope.

(** ** Python values and exceptions *)

(** JSON-like values exchanged with the agent. A [PyDict] is an association
    list in insertion order; lookups take the first binding of a key. *)
Inductive pyval : Type :=
| PyNone
| PyBool (b : bool)
| PyInt (n : Z)
| PyStr (s : string)
| PyList (l : list pyval)
| PyDict (d : list (string * pyval)).

(** Exceptions of the instrumentation engine: [frida.core.RPCException] is
    the channel-level fault raised when the agent-side procedure throws;
    [InvalidOperationError] stands for every other engine failure (script
    destroyed, session detached). *)
Inductive frida_exn : Type :=
| RPCException (args : list string)
| InvalidOperationError (msg : string).

(** Python exceptions. The three memory-error kinds carry their
    [__cause__], set by [raise ... from e]. *)
Inductive exn : Type :=
| Frida (e : frida_exn)
| QueryProcessMemoryError (cause : exn)
| ReadProcessMemoryError (cause : exn)
| WriteProcessMemoryError (cause : exn)
| ValueError
| KeyError (key : string)
| TypeError
| AttributeError
| NotImplementedError (msg : string).

(** Outcome of running a piece of Python code. *)
Inductive res (A : Type) : Type :=
| Ok (a : A)
| Raised (e : exn).
Arguments Ok {A} a.
Arguments Raised {A} e.

(** [except frida.core.RPCException] matches exactly these exceptions. *)
Definition is_RPCException (e : exn) : bool :=
  match e with
  | Frida (RPCException _) => true
  | _ => false
  end.

(** The three memory-error kinds of [process_control]. *)
Definition is_memory_error (e : exn) : bool :=
  match e with
  | QueryProcessMemoryError _ | ReadProcessMemoryError _
  | WriteProcessMemoryError _ => true
  | _ => false
  end.

(** [v == s] for a string literal [s]. *)
Definition py_eq_str (v : pyval) (s : string) : bool :=
  match v with
  | PyStr t => String.eqb t s
  | _ => false
  end.

(** First binding of [k] in a dict. *)
Fixpoint dict_lookup (k : string) (d : list (string * pyval)) : option pyval :=
  match d with
  | [] => None
  | (k', v) :: d' => if String.eqb k' k then Some v else dict_lookup k d'
  end.

(** [v[k]] for a string key: [KeyError] on a dict without the key,
    [TypeError] on any value that is not a dict. *)
Definition py_getitem (v : pyval) (k : string) : res pyval :=
  match v with
  | PyDict d =>
      match dict_lookup k d with
      | Some x => Ok x
      | None => Raised (KeyError k)
      end
  | _ => Raised TypeError
  end.

(** [v.get(k, default)]: only dicts have the method. *)
Definition py_get (v : pyval) (k : string) (default : pyval) : res pyval :=
  match v with
  | PyDict d =>
      match dict_lookup k d with
      | Some x => Ok x
      | None => Ok default
      end
  | _ => Raised AttributeError
  end.

(** [operator.index]: what [range] accepts as a bound. *)
Definition py_index (v : pyval) : res Z :=
  match v with
  | PyInt n => Ok n
  | PyBool b => Ok (if b then 1 else 0)
  | _ => Raised TypeError
  end.

(** ** [int(s, 16)]

    The string-to-integer conversion of CPython ([PyLong_FromString] with
    base 16) on ASCII text: surrounding white space is skipped, then an
    optional sign, an optional [0x]/[0X] prefix (after which one underscore
    may follow), then hexadecimal digits separated by single underscores.
    Bytes above 127 are rejected, which is CPython's answer on ASCII text
    only: CPython also reads Unicode decimal digits and Unicode white
    space. A result of the model is therefore CPython's whenever it is a
    number, and, when it is [ValueError], for ASCII text. *)

Definition is_space (c : ascii) : bool :=
  let n := N_of_ascii c in
  (N.eqb n 32 || (N.leb 9 n && N.leb n 13))%N.

Definition hex_digit_value (c : ascii) : option Z :=
  let n := Z.of_N (N_of_ascii c) in
  if (48 <=? n) && (n <=? 57) then Some (n - 48)
  else if (97 <=? n) && (n <=? 102) then Some (n - 87)
  else if (65 <=? n) && (n <=? 70) then Some (n - 55)
  else None.

Definition is_underscore (c : ascii) : bool := Ascii.eqb c "_"%char.

Fixpoint skip_spaces (s : string) : string :=
  match s with
  | String c s' => if is_space c then skip_spaces s' else s
  | EmptyString => s
  end.

(** The digit loop: [prev_us] tells whether the previous character was an
    underscore, [ndigits] counts the digits seen, [acc] is their value.
    Returns the value and the unread rest, or [None] on a doubled or
    trailing underscore or when there is no digit at all. *)
Fixpoint scan_hex_digits (s : string) (prev_us : bool) (ndigits : nat)
    (acc : Z) : option (Z * string) :=
  let stop :=
    if prev_us then None
    else match ndigits with O => None | _ => Some (acc, s) end in
  match s with
  | EmptyString => stop
  | String c s' =>
      if is_underscore c then
        if prev_us then None else scan_hex_digits s' true ndigits acc
      else
        match hex_digit_value c with
        | Some d => scan_hex_digits s' false (S ndigits) (16 * acc + d)
        | None => stop
        end
  end.

Definition strip_sign (s : string) : Z * string :=
  match s with
  | String c s' =>
      if Ascii.eqb c "+"%char then (1, s')
      else if Ascii.eqb c "-"%char then (-1, s')
      else (1, s)
  | EmptyString => (1, s)
  end.

Definition starts_with_underscore (s : string) : bool :=
  match s with
  | String c _ => is_underscore c
  | EmptyString => false
  end.

Definition strip_hex_prefix (s : string) : string :=
  match s with
  | String c0 (String c1 s') =>
      if Ascii.eqb c0 "0"%char
         && (Ascii.eqb c1 "x"%char || Ascii.eqb c1 "X"%char)
      then
        match s' with
        | String c2 s'' => if is_underscore c2 then s'' else s'
        | EmptyString => s'
        end
      else s
  | _ => s
  end.

(** The digits, after sign and prefix, then white space up to the end. *)
Definition parse_hex_digits (sign : Z) (s : string) : option Z :=
  if starts_with_underscore s then None
  else
    match scan_hex_digits s false O 0 with
    | Some (n, rest) =>
        match skip_spaces rest with
        | EmptyString => Some (sign * n)
        | _ => None
        end
    | None => None
    end.

Definition parse_hex (s : string) : option Z :=
  let '(sign, s1) := strip_sign (skip_spaces s) in
  parse_hex_digits sign (strip_hex_prefix s1).

(** [int(v, 16)]: [TypeError] unless [v] is a string, [ValueError] when the
    string is not a base-16 literal. *)
Definition py_int16 (v : pyval) : res Z :=
  match v with
  | PyStr s =>
      match parse_hex s with
      | Some n => Ok n
      | None => Raised ValueError
      end
  | _ => Raised TypeError
  end.

(** ** The world the bridge runs in *)

Abbreviation bytes := (list Byte.byte).

(** Remote procedures of the agent that the modelled operations call,
    with their arguments. *)
Inductive rpc_call : Type :=
| CallFindRangeByAddress (address : Z)
| CallEnumerateModuleRanges (module_name : string)
| CallEnumerateExportedFunctions
| CallQueryMemoryProtection (address : Z)
| CallReadProcessMemory (address size : Z)
| CallWriteProcessMemory (address : Z) (data : list Z).

(** What a remote call comes back with: a value, or an engine exception. *)
Definition reply (A : Type) : Type := (frida_exn + A)%type.

(** The injected agent as an interface ([frida_script.exports]): every
    procedure answers from the agent's current state and moves it on. *)
Class FridaRpc (Agent : Type) : Type := {
  rpc_find_range_by_address : Z -> Agent -> reply pyval * Agent;
  rpc_enumerate_module_ranges : string -> Agent -> reply (list pyval) * Agent;
  rpc_enumerate_exported_functions : Agent -> reply (list pyval) * Agent;
  rpc_query_memory_protection : Z -> Agent -> reply string * Agent;
  rpc_read_process_memory : Z -> Z -> Agent -> reply bytes * Agent;
  rpc_write_process_memory : Z -> list Z -> Agent -> reply unit * Agent
}.

(** Observable actions, in the order they happen. *)
Inductive event : Type :=
| Rpc (c : rpc_call)
| LogError (v : pyval)
| Notify (base oep : Z).

(** Modelled from the spec: [MemoryRange] of [process_control], which is
    not among the sources: base address, size, protection and optional
    data, built by keyword from whatever the agent's record holds. *)
Record MemoryRange : Type := mkMemoryRange {
  mr_base : Z;
  mr_size : pyval;
  mr_protection : pyval;
  mr_data : option bytes
}.

(** Modelled from the spec: the [Architecture] enumeration of
    [process_control], of which the bridge uses two members. *)
Inductive Architecture : Type :=
| X86_32
| X86_64.

Section Bridge.

Context {Agent Driver : Type} `{FridaRpc Agent}.

(** [exported_functions_cache] is [self._exported_functions_cache]: [None]
    or a reference into [heap], the store of mapping objects. *)
Record World : Type := mkWorld {
  agent : Agent;
  driver : Driver;
  exported_functions_cache : option nat;
  heap : list (gmap Z pyval);
  trace : list event
}.

Definition M (A : Type) : Type := World -> res A * World.

Definition ret {A} (a : A) : M A := fun w => (Ok a, w).

Definition raise {A} (e : exn) : M A := fun w => (Raised e, w).

Definition bind {A B} (c : M A) (k : A -> M B) : M B :=
  fun w =>
    match c w with
    | (Ok a, w') => k a w'
    | (Raised e, w') => (Raised e, w')
    end.

(** [try: c except Exception as e: handler e]. *)
Definition try_except {A} (c : M A) (handler : exn -> M A) : M A :=
  fun w =>
    match c w with
    | (Ok a, w') => (Ok a, w')
    | (Raised e, w') => handler e w'
    end.

Definition lift {A} (r : res A) : M A := fun w => (r, w).

Definition emit (ev : event) (w : World) : World :=
  mkWorld (agent w) (driver w) (exported_functions_cache w) (heap w)
          (trace w ++ [ev]).

Definition set_agent (a : Agent) (w : World) : World :=
  mkWorld a (driver w) (exported_functions_cache w) (heap w) (trace w).

Definition set_driver (d : Driver) (w : World) : World :=
  mkWorld (agent w) d (exported_functions_cache w) (heap w) (trace w).

(** One call through [self._frida_rpc]. *)
Definition remote {A} (c : rpc_call) (proc : Agent -> reply A * Agent)
    : M A :=
  fun w =>
    let '(r, a') := proc (agent w) in
    let w' := emit (Rpc c) (set_agent a' w) in
    match r with
    | inl e => (Raised (Frida e), w')
    | inr v => (Ok v, w')
    end.

End Bridge.

Arguments World : clear implicits.
Arguments M : clear implicits.

Notation "x <- c1 ;; c2" := (bind c1 (fun x => c2))
  (at level 100, c1 at next level, right associativity).
Notation "c1 ;; c2" := (bind c1 (fun _ => c2))
  (at level 100, right associativity).

(** ** Python built-ins used by the bridge *)

(** [range(start, stop, step)] for a positive [step], with CPython's
    length [(stop - start - 1) // step + 1] when [start < stop]. *)
Definition py_range (start stop step : Z) : list Z :=
  if start <? stop then
    map (fun k => start + Z.of_nat k * step)
        (seq 0 (Z.to_nat ((stop - start - 1) / step + 1)))
  else [].

(** ** [FridaProcessController] *)

(** See issue #7: messages cannot exceed 128MiB *)
Definition MAX_DATA_CHUNK_SIZE : Z := 64 * 1024 * 1024.

Section Controller.

Context {Agent Driver : Type} `{FridaRpc Agent}.

Abbreviation World := (World Agent Driver).
Abbreviation M := (M Agent Driver).

(** [for x in xs: acc = body x acc], stopping at the first exception. *)
Fixpoint for_in {A S} (xs : list A) (body : A -> S -> M S) (acc : S) : M S :=
  match xs with
  | [] => ret acc
  | x :: xs' => acc' <- body x acc ;; for_in xs' body acc'
  end.

(** [list(map(f, xs))]. *)
Fixpoint map_m {A B} (f : A -> M B) (xs : list A) : M (list B) :=
  match xs with
  | [] => ret []
  | x :: xs' => y <- f x ;; ys <- map_m f xs' ;; ret (y :: ys)
  end.

(** Body of the loop of [read_process_memory]. *)
Definition read_chunk (address size offset : Z) (read_data : bytes)
    : M bytes :=
  let chunk_size := Z.min MAX_DATA_CHUNK_SIZE (size - offset) in
  chunk <- remote (CallReadProcessMemory (address + offset) chunk_size)
                  (rpc_read_process_memory (address + offset) chunk_size) ;;
  ret (read_data ++ chunk).

Definition read_process_memory (address size : Z) : M bytes :=
  try_except
    (for_in (py_range 0 size MAX_DATA_CHUNK_SIZE) (read_chunk address size) [])
    (fun e =>
       if is_RPCException e then raise (ReadProcessMemoryError e)
       else raise e).

(** [read_process_memory] called with the [size] object of an agent record:
    [range] wants an integer. *)
Definition read_process_memory_obj (address : Z) (size : pyval) : M bytes :=
  match py_index size with
  | Ok n => read_process_memory address n
  | Raised e => raise e
  end.

Definition query_memory_protection (address : Z) : M string :=
  try_except
    (remote (CallQueryMemoryProtection address)
            (rpc_query_memory_protection address))
    (fun e =>
       if is_RPCException e then raise (QueryProcessMemoryError e)
       else raise e).

Definition write_process_memory (address : Z) (data : list Z) : M unit :=
  try_except
    (remote (CallWriteProcessMemory address data)
            (rpc_write_process_memory address data))
    (fun e =>
       if is_RPCException e then raise (WriteProcessMemoryError e)
       else raise e).

Definition _frida_range_to_mem_range (r : pyval) (with_data : bool)
    : M MemoryRange :=
  base_str <- lift (py_getitem r "base") ;;
  base <- lift (py_int16 base_str) ;;
  size <- lift (py_getitem r "size") ;;
  data <- (if with_data then
             d <- read_process_memory_obj base size ;; ret (Some d)
           else ret None) ;;
  protection <- lift (py_getitem r "protection") ;;
  ret (mkMemoryRange base size protection data).

Definition find_range_by_address (address : Z) (include_data : bool)
    : M (option MemoryRange) :=
  value <- remote (CallFindRangeByAddress address)
                  (rpc_find_range_by_address address) ;;
  match value with
  | PyNone => ret None
  | _ => mr <- _frida_range_to_mem_range value include_data ;; ret (Some mr)
  end.

Definition enumerate_module_ranges (module_name : string)
    (include_data : bool) : M (list MemoryRange) :=
  let convert_range := fun r => _frida_range_to_mem_range r include_data in
  value <- remote (CallEnumerateModuleRanges module_name)
                  (rpc_enumerate_module_ranges module_name) ;;
  map_m convert_range value.

(** [{int(e["address"], 16): e for e in value}], continued from the
    mapping [m] built so far. *)
Fixpoint exports_dict_of (value : list pyval) (m : gmap Z pyval)
    : res (gmap Z pyval) :=
  match value with
  | [] => Ok m
  | e :: value' =>
      match py_getitem e "address" with
      | Ok a =>
          match py_int16 a with
          | Ok k => exports_dict_of value' (<[k := e]> m)
          | Raised x => Raised x
          end
      | Raised x => Raised x
      end
  end.

(** A new mapping object on the heap; its reference is its index. *)
Definition alloc (m : gmap Z pyval) : M nat :=
  fun w =>
    (Ok (length (heap w)),
     mkWorld (agent w) (driver w) (exported_functions_cache w)
             (heap w ++ [m]) (trace w)).

Definition set_exported_functions_cache (c : option nat) : M unit :=
  fun w =>
    (Ok tt, mkWorld (agent w) (driver w) c (heap w) (trace w)).

Definition get_exported_functions_cache : M (option nat) :=
  fun w => (Ok (exported_functions_cache w), w).

(** Returns the reference of the mapping object. *)
Definition enumerate_exported_functions (update_cache : bool) : M nat :=
  let enumerate : M nat :=
    value <- remote CallEnumerateExportedFunctions
                    rpc_enumerate_exported_functions ;;
    exports_dict <- lift (exports_dict_of value ∅) ;;
    exports_ref <- alloc exports_dict ;;
    set_exported_functions_cache (Some exports_ref) ;;
    ret exports_ref in
  cache <- get_exported_functions_cache ;;
  match cache with
  | None => enumerate
  | Some cached => if update_cache then enumerate else ret cached
  end.

End Controller.

(** ** Module-level functions *)

Definition _str_to_architecture (frida_arch : string) : res Architecture :=
  if String.eqb frida_arch "ia32" then Ok X86_32
  else if String.eqb frida_arch "x64" then Ok X86_64
  else Raised ValueError.

Section Callback.

Context {Agent Driver : Type}.

Abbreviation World := (World Agent Driver).
Abbreviation M := (M Agent Driver).

Definition log_error (v : pyval) : M unit :=
  fun w => (Ok tt, emit (LogError v) w).

(** Calling the driver's callback: the invocation is recorded, then the
    callback runs on the driver's state and may itself raise. *)
Definition call_notify (notify_oep_reached : Z -> Z -> Driver -> res unit * Driver)
    (base oep : Z) : M unit :=
  fun w =>
    let w1 := emit (Notify base oep) w in
    let '(r, d') := notify_oep_reached base oep (driver w1) in
    (r, set_driver d' w1).

Definition _frida_callback
    (notify_oep_reached : Z -> Z -> Driver -> res unit * Driver)
    (message : pyval) (_data : option bytes) : M unit :=
  msg_type <- lift (py_getitem message "type") ;;
  if py_eq_str msg_type "error" then
    log_error message ;;
    stack <- lift (py_getitem message "stack") ;;
    log_error stack ;;
    ret tt
  else
    returned <-
      (if py_eq_str msg_type "send" then
         payload <- lift (py_getitem message "payload") ;;
         event <- lift (py_get payload "event" (PyStr EmptyString)) ;;
         if py_eq_str event "oep_reached" then
           base_str <- lift (py_getitem payload "BASE") ;;
           base <- lift (py_int16 base_str) ;;
           oep_str <- lift (py_getitem payload "OEP") ;;
           oep <- lift (py_int16 oep_str) ;;
           call_notify notify_oep_reached base oep ;;
           ret true
         else ret false
       else ret false) ;;
    if returned : bool then ret tt
    else raise (NotImplementedError "Unknown message received").

End Callback.

(** ** The rest of the controller, its constructor and the session bootstrap

    The operations below call remote procedures and engine functions that
    the operations above do not use. They run in the same monad, over a
    world whose driver component is an [Env]: the engine, the log of these
    calls, and the calling program's own state. *)

(** The calls the operations below make, with their arguments; session and
    script handles are integers. *)
Inductive engine_call : Type :=
| CallGetArchitecture
| CallGetPointerSize
| CallGetPageSize
| CallFindModuleByAddress (address : Z)
| CallEnumerateModules
| CallAllocateProcessMemory (size near : Z)
| CallSetMemoryProtection (address size : Z) (protection : string)
| CallSetupOepTracing (module_name : string)
| Spawn (program : list string)
| Attach (pid : Z)
| OpenText (package resource : string)
| CreateScript (session : Z) (source : string)
| ScriptOn (script : Z) (signal : string)
| ScriptLoad (script : Z)
| Resume (pid : Z)
| Kill (pid : Z)
| Detach (session : Z).

(** The rest of [frida_script.exports]. *)
Class FridaRpcMore (Agent : Type) : Type := {
  rpc_get_architecture : Agent -> reply string * Agent;
  rpc_get_pointer_size : Agent -> reply Z * Agent;
  rpc_get_page_size : Agent -> reply Z * Agent;
  rpc_find_module_by_address : Z -> Agent -> reply pyval * Agent;
  rpc_enumerate_modules : Agent -> reply (list string) * Agent;
  rpc_allocate_process_memory : Z -> Z -> Agent -> reply pyval * Agent;
  rpc_set_memory_protection :
    Z -> Z -> string -> Agent -> reply bool * Agent;
  rpc_setup_oep_tracing : string -> Agent -> reply unit * Agent
}.

(** The engine as an interface: [frida.spawn], [frida.attach],
    [resources.open_text(...).read()], [session.create_script],
    [script.on], [script.load], [frida.resume], [frida.kill] and
    [session.detach]. Any of them may raise. *)
Class FridaEngine (Engine : Type) : Type := {
  frida_spawn : list string -> Engine -> res Z * Engine;
  frida_attach : Z -> Engine -> res Z * Engine;
  resources_open_text : string -> string -> Engine -> res string * Engine;
  session_create_script : Z -> string -> Engine -> res Z * Engine;
  script_on : Z -> string -> Engine -> res unit * Engine;
  script_load : Z -> Engine -> res unit * Engine;
  frida_resume : Z -> Engine -> res unit * Engine;
  frida_kill : Z -> Engine -> res unit * Engine;
  session_detach : Z -> Engine -> res unit * Engine
}.

(** What lies outside the bridge. *)
Record Env (Engine User : Type) : Type := mkEnv {
  engine : Engine;
  calls : list engine_call;
  user : User
}.
Arguments mkEnv {Engine User} engine calls user.
Arguments engine {Engine User} e.
Arguments calls {Engine User} e.
Arguments user {Engine User} e.

(** [pathlib.Path], as the two views the bootstrap takes of it:
    [str(exe_path)] and [exe_path.name]. *)
Record Path : Type := mkPath {
  path_str : string;
  path_name : string
}.

(** The controller object. Modelled from the spec: the five fields that
    [ProcessController.__init__] of [process_control] stores, which is not
    among the sources; [_frida_rpc] is the script whose exports it is. The
    export cache is the world's [exported_functions_cache]. *)
Record FridaProcessController : Type := mkFridaProcessController {
  pid : Z;
  main_module_name : string;
  architecture : Architecture;
  pointer_size : Z;
  page_size : Z;
  _frida_rpc : Z;
  _frida_session : Z
}.

Section Session.

Context {Agent Engine User : Type}
        `{FridaRpcMore Agent} `{FridaEngine Engine}.

Abbreviation World := (World Agent (Env Engine User)).
Abbreviation M := (M Agent (Env Engine User)).

Definition log_call (c : engine_call) (w : World) : World :=
  set_driver (mkEnv (engine (driver w)) (calls (driver w) ++ [c])
                    (user (driver w))) w.

(** One call through [self._frida_rpc] to a procedure of [FridaRpcMore]. *)
Definition remote_more {A} (c : engine_call)
    (proc : Agent -> reply A * Agent) : M A :=
  fun w =>
    let '(r, a') := proc (agent w) in
    let w' := log_call c (set_agent a' w) in
    match r with
    | inl e => (Raised (Frida e), w')
    | inr v => (Ok v, w')
    end.

(** One call of an engine function. *)
Definition engine_do {A} (c : engine_call) (op : Engine -> res A * Engine)
    : M A :=
  fun w =>
    let '(r, e') := op (engine (driver w)) in
    (r, set_driver (mkEnv e' (calls (driver w) ++ [c]) (user (driver w))) w).

Definition __init__ (pid : Z) (main_module_name : string)
    (frida_session frida_script : Z) : M FridaProcessController :=
  let frida_rpc := frida_script in
  frida_arch <- remote_more CallGetArchitecture rpc_get_architecture ;;
  arch <- lift (_str_to_architecture frida_arch) ;;
  pointer_size <- remote_more CallGetPointerSize rpc_get_pointer_size ;;
  page_size <- remote_more CallGetPageSize rpc_get_page_size ;;
  set_exported_functions_cache None ;;
  ret (mkFridaProcessController pid main_module_name arch pointer_size
                                page_size frida_rpc frida_session).

Definition find_module_by_address (address : Z) : M pyval :=
  value <- remote_more (CallFindModuleByAddress address)
                       (rpc_find_module_by_address address) ;;
  ret value.

Definition enumerate_modules : M (list string) :=
  value <- remote_more CallEnumerateModules rpc_enumerate_modules ;;
  ret value.

Definition allocate_process_memory (size near : Z) : M Z :=
  buffer_addr <- remote_more (CallAllocateProcessMemory size near)
                             (rpc_allocate_process_memory size near) ;;
  lift (py_int16 buffer_addr).

Definition set_memory_protection (address size : Z) (protection : string)
    : M bool :=
  result <- remote_more (CallSetMemoryProtection address size protection)
                        (rpc_set_memory_protection address size protection) ;;
  ret result.

Definition terminate_process (self : FridaProcessController) : M unit :=
  engine_do (Kill (pid self)) (frida_kill (pid self)) ;;
  engine_do (Detach (_frida_session self))
            (session_detach (_frida_session self)).

(** The callback is only handed to [script.on], wrapped with
    [_frida_callback]; the bootstrap itself never calls it. *)
Definition spawn_and_instrument (exe_path : Path)
    (notify_oep_reached :
       Z -> Z -> Env Engine User -> res unit * Env Engine User)
    : M FridaProcessController :=
  let main_module_name := path_name exe_path in
  pid <- engine_do (Spawn [path_str exe_path])
                   (frida_spawn [path_str exe_path]) ;;
  session <- engine_do (Attach pid) (frida_attach pid) ;;
  frida_js <- engine_do (OpenText "unlicense.resources" "frida.js")
                (resources_open_text "unlicense.resources" "frida.js") ;;
  script <- engine_do (CreateScript session frida_js)
                      (session_create_script session frida_js) ;;
  engine_do (ScriptOn script "message") (script_on script "message") ;;
  engine_do (ScriptLoad script) (script_load script) ;;
  process_controller <- __init__ pid main_module_name session script ;;
  remote_more (CallSetupOepTracing (path_name exe_path))
              (rpc_setup_oep_tracing (path_name exe_path)) ;;
  engine_do (Resume pid) (frida_resume pid) ;;
  ret process_controller.

End Session.

(** * The vocabulary of the statements

    Definitions that follow the words of the design rather than the code:
    the chunk plan of a bulk read, hexadecimal strings, the keys of export
    records, and what an agent's answers amount to. *)

(** ** Chunked reads, as the design describes them *)

(** The ceiling of [a / b] for a positive [b]. *)
Definition ceil_div (a b : Z) : Z := (a + b - 1) / b.

(** The single-chunk reads of a bulk read, as (address, size) pairs:
    chunk [k] starts at offset [k * CHUNK] and asks for
    [min(CHUNK, size - offset)] bytes at [address + offset]. *)
Definition chunk_plan (address size : Z) : list (Z * Z) :=
  map (fun k =>
         let offset := Z.of_nat k * MAX_DATA_CHUNK_SIZE in
         (address + offset, Z.min MAX_DATA_CHUNK_SIZE (size - offset)))
      (seq 0 (Z.to_nat (ceil_div size MAX_DATA_CHUNK_SIZE))).

Definition read_call (c : Z * Z) : event :=
  Rpc (CallReadProcessMemory (fst c) (snd c)).

(** ** Hexadecimal strings *)

(** A hexadecimal string as the agent writes pointers: an optional [0x]
    (or [0X]) followed by at least one hexadecimal digit. *)
Definition drop_0x (s : string) : string :=
  match s with
  | String c0 (String c1 s') =>
      if Ascii.eqb c0 "0"%char
         && (Ascii.eqb c1 "x"%char || Ascii.eqb c1 "X"%char)
      then s' else s
  | _ => s
  end.

Fixpoint all_hex_digits (s : string) : bool :=
  match s with
  | EmptyString => true
  | String c s' => bool_decide (is_Some (hex_digit_value c)) && all_hex_digits s'
  end.

Definition is_hex_string (s : string) : bool :=
  match drop_0x s with
  | EmptyString => false
  | ds => all_hex_digits ds
  end.

(** The unsigned integer a string of hexadecimal digits denotes, most
    significant digit first, continuing from [acc]. *)
Fixpoint hex_digits_value (s : string) (acc : Z) : Z :=
  match s with
  | EmptyString => acc
  | String c s' => hex_digits_value s' (16 * acc + default 0 (hex_digit_value c))
  end.

Definition hex_value (s : string) : Z := hex_digits_value (drop_0x s) 0.

(** ** The export cache *)

(** The key of an export record: its [address], parsed as hexadecimal. *)
Definition export_key (e : pyval) : res Z :=
  match py_getitem e "address" with
  | Ok a => py_int16 a
  | Raised x => Raised x
  end.

(** The keys of all the records, when each of them has one. *)
Fixpoint export_keys (value : list pyval) : option (list Z) :=
  match value with
  | [] => Some []
  | e :: value' =>
      match export_key e, export_keys value' with
      | Ok k, Some ks => Some (k :: ks)
      | _, _ => None
      end
  end.

Definition sum_Z (l : list Z) : Z := foldr Z.add 0 l.

Section Vocabulary.

Context {Agent Driver : Type} `{FridaRpc Agent}.

Abbreviation World := (World Agent Driver).

(** The world after the events [evs]. *)
Definition emits (evs : list event) (w : World) : World :=
  mkWorld (agent w) (driver w) (exported_functions_cache w) (heap w)
          (trace w ++ evs).

(** The agent answers every read of [plan] in turn without a fault:
    the answers, and the agent afterwards. *)
Fixpoint serve_reads (a : Agent) (plan : list (Z * Z))
    : option (list bytes * Agent) :=
  match plan with
  | [] => Some ([], a)
  | (address, size) :: plan' =>
      match rpc_read_process_memory address size a with
      | (inr chunk, a') =>
          match serve_reads a' plan' with
          | Some (chunks, a'') => Some (chunk :: chunks, a'')
          | None => None
          end
      | (inl _, _) => None
      end
  end.

Definition chunk_of (address size offset : Z) : Z * Z :=
  (address + offset, Z.min MAX_DATA_CHUNK_SIZE (size - offset)).

(** The agent answers every read of [plan] with as many bytes as asked. *)
Definition answers_in_full (a : Agent) (plan : list (Z * Z)) : Prop :=
  exists chunks a',
    serve_reads a plan = Some (chunks, a')
    /\ Forall2 (fun c chunk => Z.of_nat (length chunk) = snd c) plan chunks.

(** How a returned range relates to the agent's record [r] when data was
    asked for: [base] is [r["base"]] read as hexadecimal, [size] is
    [r["size"]], and [data] is what the bulk read of [size] bytes at [base]
    returned, taking the world from [w] to [w']. *)
Definition range_read (w : World) (r : pyval) (mr : MemoryRange)
    (w' : World) : Prop :=
  exists b size d,
    py_getitem r "base" = Ok b
    /\ py_int16 b = Ok (mr_base mr)
    /\ py_getitem r "size" = Ok (mr_size mr)
    /\ py_index (mr_size mr) = Ok size
    /\ mr_data mr = Some d
    /\ read_process_memory (mr_base mr) size w = (Ok d, w')
    /\ (0 <= size ->
        answers_in_full (agent w) (chunk_plan (mr_base mr) size) ->
        Z.of_nat (length d) = size)
    /\ (forall s, b = PyStr s -> is_hex_string s = true ->
                  mr_base mr = hex_value s /\ 0 <= mr_base mr).

(** The same for a list of records, converted one after the other. *)
Inductive ranges_read : World -> list pyval -> list MemoryRange -> World
                        -> Prop :=
| ranges_read_nil w : ranges_read w [] [] w
| ranges_read_cons w r mr w1 rs mrs w' :
    range_read w r mr w1 ->
    ranges_read w1 rs mrs w' ->
    ranges_read w (r :: rs) (mr :: mrs) w'.

(** The world after a full enumeration that answered [value], from which
    the mapping [m] was built. *)
Definition enumerated (a' : Agent) (m : gmap Z pyval) (w : World) : World :=
  mkWorld a' (driver w) (Some (length (heap w))) (heap w ++ [m])
          (trace w ++ [Rpc CallEnumerateExportedFunctions]).

End Vocabulary.

(** ** A scripted agent

    A fake peer to run the bridge against: it answers from fixed tables,
    counts the memory reads it has served, and faults on addresses at or
    above [fault_from]. A read answers with at most four bytes (exactly
    the requested number up to four), each byte being the number of reads
    served before it. *)
Module FakeAgent.

Record state : Type := mkState {
  served : nat;
  fault_from : Z;
  ranges : list pyval;
  exports : list (list pyval)
}.

Definition fault : frida_exn := RPCException ["access violation"].

Definition tick (a : state) : state :=
  mkState (S (served a)) (fault_from a) (ranges a) (exports a).

Definition counter_byte (n : nat) : Byte.byte :=
  match Byte.of_nat n with
  | Some b => b
  | None => Byte.xff
  end.

Definition read (address size : Z) (a : state) : reply bytes * state :=
  if fault_from a <=? address then (inl fault, a)
  else (inr (repeat (counter_byte (served a)) (Z.to_nat (Z.min size 4))),
        tick a).

Definition query (address : Z) (a : state) : reply string * state :=
  if fault_from a <=? address then (inl fault, a)
  else if address =? 0 then (inl (InvalidOperationError "script has been destroyed"), a)
  else (inr "rw-", a).

Definition write (address : Z) (data : list Z) (a : state)
    : reply unit * state :=
  if fault_from a <=? address then (inl fault, a)
  else if address =? 0 then (inl (InvalidOperationError "script has been destroyed"), a)
  else (inr tt, a).

(** Each enumeration answers with the next table of [exports]. *)
Definition enumerate_exports (a : state) : reply (list pyval) * state :=
  match exports a with
  | [] => (inr [], a)
  | e :: rest => (inr e, mkState (served a) (fault_from a) (ranges a) rest)
  end.

Definition find_range (address : Z) (a : state) : reply pyval * state :=
  (inr (hd PyNone (ranges a)), a).

Definition module_ranges (name : string) (a : state)
    : reply (list pyval) * state :=
  (inr (ranges a), a).

#[global] Instance rpc : FridaRpc state := {|
  rpc_find_range_by_address := find_range;
  rpc_enumerate_module_ranges := module_ranges;
  rpc_enumerate_exported_functions := enumerate_exports;
  rpc_query_memory_protection := query;
  rpc_read_process_memory := read;
  rpc_write_process_memory := write
|}.

Definition range_record (base : string) (size : Z) : pyval :=
  PyDict [("base", PyStr base); ("size", PyInt size);
          ("protection", PyStr "r-x")].

Definition export_record (address name : string) : pyval :=
  PyDict [("address", PyStr address); ("name", PyStr name)].

Definition init : state :=
  mkState 0 2147483648
          [range_record "0x1000" 3; range_record "0x2000" 2]
          [[export_record "0x1000" "f"; export_record "0x2000" "g";
            export_record "0x1000" "h"];
           [export_record "0x3000" "k"]].

(** The driver's state is the list of notifications it has recorded. *)
Definition world0 : World state (list (Z * Z)) :=
  mkWorld init [] None [] [].

Definition record_oep (base oep : Z) (d : list (Z * Z))
    : res unit * list (Z * Z) :=
  (Ok tt, d ++ [(base, oep)]).

End FakeAgent.

(** Messages and tables to run the bridge on. *)

Definition oep_message : pyval :=
  PyDict [("type", PyStr "send");
          ("payload", PyDict [("event", PyStr "oep_reached");
                              ("BASE", PyStr "0x1000");
                              ("OEP", PyStr "0x1234")])].

Definition unknown_event_message : pyval :=
  PyDict [("type", PyStr "send");
          ("payload", PyDict [("event", PyStr "unknown")])].

Definition error_message : pyval :=
  PyDict [("type", PyStr "error");
          ("description", PyStr "ReferenceError: x is not defined");
          ("stack", PyStr "at frida.js:1")].

Definition error_message_without_stack : pyval :=
  PyDict [("type", PyStr "error");
          ("description", PyStr "ReferenceError: x is not defined")].

Definition fake_exports_1 : list pyval :=
  [FakeAgent.export_record "0x1000" "f"; FakeAgent.export_record "0x2000" "g";
   FakeAgent.export_record "0x1000" "h"].

Definition fake_agent_after_enumeration : FakeAgent.state :=
  FakeAgent.mkState 0 2147483648 (FakeAgent.ranges FakeAgent.init)
                    [[FakeAgent.export_record "0x3000" "k"]].

(** Vocabulary of the further properties. *)

Section VocabularyMore.

Context {Agent Driver : Type} `{FridaRpc Agent}.

(** The agent serves the data of every record of [rs] in turn, each record
    having a hexadecimal [base], an integer [size] and a [protection]: the
    ranges, the reads in order, and the agent afterwards. *)
Fixpoint serve_ranges (a : Agent) (rs : list pyval)
    : option (list MemoryRange * list event * Agent) :=
  match rs with
  | [] => Some ([], [], a)
  | r :: rs' =>
      match py_getitem r "base", py_getitem r "size",
            py_getitem r "protection" with
      | Ok (PyStr s), Ok (PyInt n), Ok protection =>
          if is_hex_string s then
            match serve_reads a (chunk_plan (hex_value s) n) with
            | Some (chunks, a1) =>
                match serve_ranges a1 rs' with
                | Some (mrs, evs, a2) =>
                    Some (mkMemoryRange (hex_value s) (PyInt n) protection
                                        (Some (concat chunks)) :: mrs,
                          map read_call (chunk_plan (hex_value s) n) ++ evs,
                          a2)
                | None => None
                end
            | None => None
            end
          else None
      | _, _, _ => None
      end
  end.

(** What a read raises when the remote call of a chunk raised [f]. *)
Definition read_error (f : frida_exn) : exn :=
  match f with
  | RPCException _ => ReadProcessMemoryError (Frida f)
  | InvalidOperationError _ => Frida f
  end.

(** The range a record stands for, apart from its data. *)
Definition range_of_record (r : pyval) (mr : MemoryRange) : Prop :=
  exists b,
    py_getitem r "base" = Ok b
    /\ py_int16 b = Ok (mr_base mr)
    /\ py_getitem r "size" = Ok (mr_size mr)
    /\ py_getitem r "protection" = Ok (mr_protection mr).

Definition is_rpc_event (ev : event) : bool :=
  match ev with
  | Rpc _ => true
  | _ => false
  end.

Definition is_notify_event (ev : event) : bool :=
  match ev with
  | Notify _ _ => true
  | _ => false
  end.

(** What a single-call operation raises when its remote call raised [f],
    [wrap] being the operation's own error kind. *)
Definition translated (wrap : exn -> exn) (f : frida_exn) : exn :=
  match f with
  | RPCException _ => wrap (Frida f)
  | InvalidOperationError _ => Frida f
  end.

(** The ranges that records with a hexadecimal [base], a [size] and a
    [protection] stand for when no data is asked for. *)
Fixpoint plain_ranges (rs : list pyval) : option (list MemoryRange) :=
  match rs with
  | [] => Some []
  | r :: rs' =>
      match py_getitem r "base", py_getitem r "size",
            py_getitem r "protection" with
      | Ok (PyStr s), Ok size, Ok protection =>
          if is_hex_string s then
            match plain_ranges rs' with
            | Some mrs =>
                Some (mkMemoryRange (hex_value s) size protection None :: mrs)
            | None => None
            end
          else None
      | _, _, _ => None
      end
  end.

(** Text of ASCII characters only, and values whose text, if they are
    strings, is ASCII: where [py_int16] is CPython's [int(v, 16)], also
    when it raises. *)
Fixpoint is_ascii_string (s : string) : bool :=
  match s with
  | EmptyString => true
  | String c s' => (N_of_ascii c <? 128)%N && is_ascii_string s'
  end.

Definition ascii_literal (v : pyval) : bool :=
  match v with
  | PyStr s => is_ascii_string s
  | _ => true
  end.

End VocabularyMore.

Section VocabularySession.

Context {Agent Engine User : Type}.

(** The world after the calls [cs], which left the engine in [e] and the
    agent in [a]. *)
Definition logged (cs : list engine_call) (e : Engine) (a : Agent)
    (w : World Agent (Env Engine User))
    : World Agent (Env Engine User) :=
  mkWorld a (mkEnv e (calls (driver w) ++ cs) (user (driver w)))
          (exported_functions_cache w) (heap w) (trace w).

End VocabularySession.

(** ** A scripted peer and engine for the whole surface

    The peer wraps the scripted agent: once [destroyed] every procedure
    raises [InvalidOperationError]; allocation faults on a size that is not
    positive and otherwise answers [allocation]. *)
Module FakePeer.

Record state : Type := mkState {
  base : FakeAgent.state;
  arch : string;
  destroyed : bool;
  allocation : pyval
}.

Definition gone : frida_exn :=
  InvalidOperationError "script has been destroyed".

Definition guard {A} (proc : FakeAgent.state -> reply A * FakeAgent.state)
    (a : state) : reply A * state :=
  if destroyed a then (inl gone, a)
  else
    let '(r, b) := proc (base a) in
    (r, mkState b (arch a) (destroyed a) (allocation a)).

Definition answer {A} (v : A) (a : state) : reply A * state :=
  if destroyed a then (inl gone, a) else (inr v, a).

#[global] Instance rpc : FridaRpc state := {|
  rpc_find_range_by_address address := guard (FakeAgent.find_range address);
  rpc_enumerate_module_ranges name := guard (FakeAgent.module_ranges name);
  rpc_enumerate_exported_functions := guard FakeAgent.enumerate_exports;
  rpc_query_memory_protection address := guard (FakeAgent.query address);
  rpc_read_process_memory address size := guard (FakeAgent.read address size);
  rpc_write_process_memory address data :=
    guard (FakeAgent.write address data)
|}.

#[global] Instance more : FridaRpcMore state := {|
  rpc_get_architecture a := answer (arch a) a;
  rpc_get_pointer_size := answer 8;
  rpc_get_page_size := answer 4096;
  rpc_find_module_by_address address := answer PyNone;
  rpc_enumerate_modules := answer ["main.exe"; "ntdll.dll"];
  rpc_allocate_process_memory size near a :=
    if size <=? 0 then (inl FakeAgent.fault, a) else answer (allocation a) a;
  rpc_set_memory_protection address size protection := answer true;
  rpc_setup_oep_tracing name := answer tt
|}.

Definition init : state :=
  mkState FakeAgent.init "x64" false (PyStr "0x7ff000").

Definition destroyed_peer : state :=
  mkState FakeAgent.init "x64" true (PyStr "0x7ff000").

Definition arm_peer : state :=
  mkState FakeAgent.init "arm64" false (PyStr "0x7ff000").

Definition confused_peer : state :=
  mkState FakeAgent.init "x64" false (PyStr "nowhere").

End FakePeer.

(** The engine: spawning fails when the program is [missing]; killing
    fails when the process is already [dead]. *)
Module FakeEngine.

Record state : Type := mkState {
  missing : bool;
  dead : bool;
  resumed : list Z
}.

Definition not_found : exn :=
  Frida (InvalidOperationError "unable to find executable").

Definition no_process : exn :=
  Frida (InvalidOperationError "process not found").

#[global] Instance engine : FridaEngine state := {|
  frida_spawn program e :=
    if missing e then (Raised not_found, e) else (Ok 4242, e);
  frida_attach pid e := (Ok 1, e);
  resources_open_text package resource e := (Ok "rpc.exports = {};", e);
  session_create_script session source e := (Ok 2, e);
  script_on script signal e := (Ok tt, e);
  script_load script e := (Ok tt, e);
  frida_resume pid e :=
    (Ok tt, mkState (missing e) (dead e) (resumed e ++ [pid]));
  frida_kill pid e :=
    if dead e then (Raised no_process, e)
    else (Ok tt, mkState (missing e) true (resumed e));
  session_detach session e := (Ok tt, e)
|}.

Definition init : state := mkState false false [].

End FakeEngine.

Definition fake_session (peer : FakePeer.state) (e : FakeEngine.state)
    : World FakePeer.state (Env FakeEngine.state unit) :=
  mkWorld peer (mkEnv e [] tt) None [] [].

Definition fake_controller : FridaProcessController :=
  mkFridaProcessController 4242 "packed.exe" X86_64 8 4096 2 1.

Definition packed_exe : Path := mkPath "C:\samples\packed.exe" "packed.exe".

Definition ignore_oep (base oep : Z) (d : Env FakeEngine.state unit)
    : res unit * Env FakeEngine.state unit :=
  (Ok tt, d).

(** Further messages, records and tables. *)

Definition fake_world_with (ranges : list pyval)
    : World FakeAgent.state (list (Z * Z)) :=
  mkWorld (FakeAgent.mkState 0 2147483648 ranges []) [] None [] [].

Definition record_without_base : pyval :=
  PyDict [("size", PyInt 3); ("protection", PyStr "r-x")].

Definition record_without_protection : pyval :=
  PyDict [("base", PyStr "0x1000"); ("size", PyInt 3)].

Definition record_unreadable : pyval :=
  FakeAgent.range_record "0x80000000" 3.

Definition fake_world_exporting (tables : list (list pyval))
    : World FakeAgent.state (list (Z * Z)) :=
  mkWorld (FakeAgent.mkState 0 2147483648 [] tables) [] None [] [].

Definition message_without_type : pyval :=
  PyDict [("payload", PyDict [("event", PyStr "oep_reached")])].

Definition oep_message_bad_oep : pyval :=
  PyDict [("type", PyStr "send");
          ("payload", PyDict [("event", PyStr "oep_reached");
                              ("BASE", PyStr "0x1000");
                              ("OEP", PyStr "entry")])].

Definition failing_oep (base oep : Z) (d : list (Z * Z))
    : res unit * list (Z * Z) :=
  (Raised TypeError, d ++ [(base, oep)]).

(** * Properties *)

(** ** The built-ins and the scripted agent, run *)

Example py_int16_0x1000 : py_int16 (PyStr "0x1000") = Ok 4096.
Proof. reflexivity. Qed.

Example py_int16_neg : py_int16 (PyStr " -0X_fF_0 ") = Ok (-4080).
Proof. reflexivity. Qed.

Example py_int16_bad :
  map py_int16 [PyStr EmptyString; PyStr "0x"; PyStr "1__0"; PyStr "10_"; PyStr "_10";
                PyStr "0x10g"; PyInt 16]
  = [Raised ValueError; Raised ValueError; Raised ValueError;
     Raised ValueError; Raised ValueError; Raised ValueError;
     Raised TypeError].
Proof. reflexivity. Qed.

Example py_range_0_10_4 : py_range 0 10 4 = [0; 4; 8].
Proof. reflexivity. Qed.

Example py_range_0_8_4 : py_range 0 8 4 = [0; 4].
Proof. reflexivity. Qed.

Example py_range_empty : py_range 0 0 4 = [] /\ py_range 0 (-5) 4 = [].
Proof. split; reflexivity. Qed.

Example hex_value_0x1234 :
  is_hex_string "0x1234" = true /\ hex_value "0x1234" = 4660.
Proof. split; reflexivity. Qed.

Example fake_read_small :
  fst (read_process_memory 4096 3 FakeAgent.world0)
  = Ok [Byte.x00; Byte.x00; Byte.x00].
Proof. reflexivity. Qed.

Example fake_read_two_chunks :
  let '(r, w) := read_process_memory 4096 (MAX_DATA_CHUNK_SIZE + 2)
                                     FakeAgent.world0 in
  r = Ok [Byte.x00; Byte.x00; Byte.x00; Byte.x00; Byte.x01; Byte.x01]
  /\ trace w = [Rpc (CallReadProcessMemory 4096 MAX_DATA_CHUNK_SIZE);
                Rpc (CallReadProcessMemory (4096 + MAX_DATA_CHUNK_SIZE) 2)].
Proof. vm_compute. split; reflexivity. Qed.

(** ** Worlds and traces *)

Section Worlds.

Context {Agent Driver : Type}.

Lemma emits_nil (w : World Agent Driver) : emits [] w = w.
Proof. destruct w; unfold emits; simpl. by rewrite app_nil_r. Qed.

Lemma emit_emits ev (w : World Agent Driver) : emit ev w = emits [ev] w.
Proof. reflexivity. Qed.

Lemma emits_emits evs1 evs2 (w : World Agent Driver) :
  emits evs2 (emits evs1 w) = emits (evs1 ++ evs2) w.
Proof. unfold emits; simpl. by rewrite app_assoc. Qed.

Lemma set_agent_emits (a : Agent) evs (w : World Agent Driver) :
  set_agent a (emits evs w) = emits evs (set_agent a w).
Proof. reflexivity. Qed.

Lemma set_agent_set_agent (a b : Agent) (w : World Agent Driver) :
  set_agent a (set_agent b w) = set_agent a w.
Proof. reflexivity. Qed.

Lemma set_agent_same (w : World Agent Driver) : set_agent (agent w) w = w.
Proof. by destruct w. Qed.

Lemma emits_after_call ev evs (a1 a2 : Agent) (w : World Agent Driver) :
  emits evs (set_agent a2 (emit ev (set_agent a1 w)))
  = emits (ev :: evs) (set_agent a2 w).
Proof. unfold emits, emit, set_agent; simpl. by rewrite <- app_assoc. Qed.

End Worlds.

(** ** Chunked reads *)

Section Reads.

Context {Agent Driver : Type} `{FridaRpc Agent}.

Abbreviation World := (World Agent Driver).

Lemma MAX_DATA_CHUNK_SIZE_pos : 0 < MAX_DATA_CHUNK_SIZE.
Proof. reflexivity. Qed.

Lemma ceil_div_spec a b :
  0 < b -> (ceil_div a b - 1) * b < a <= ceil_div a b * b.
Proof.
  intros Hb. unfold ceil_div.
  pose proof (Z.div_mod (a + b - 1) b ltac:(lia)) as Hdm.
  pose proof (Z.mod_pos_bound (a + b - 1) b Hb) as Hm.
  nia.
Qed.

Lemma py_range_chunks address size :
  map (chunk_of address size) (py_range 0 size MAX_DATA_CHUNK_SIZE)
  = chunk_plan address size.
Proof.
  pose proof MAX_DATA_CHUNK_SIZE_pos as Hc.
  unfold py_range, chunk_plan, ceil_div.
  destruct (Z.ltb_spec 0 size) as [Hs | Hs].
  - rewrite map_map.
    replace (size + MAX_DATA_CHUNK_SIZE - 1)
      with (size - 0 - 1 + 1 * MAX_DATA_CHUNK_SIZE) by lia.
    rewrite Z.div_add by lia.
    apply map_ext. intros k. unfold chunk_of. simpl. reflexivity.
  - assert ((size + MAX_DATA_CHUNK_SIZE - 1) / MAX_DATA_CHUNK_SIZE <= 0) as Hle.
    { assert ((size + MAX_DATA_CHUNK_SIZE - 1) / MAX_DATA_CHUNK_SIZE < 1);
        [apply Z.div_lt_upper_bound; lia | lia]. }
    replace (Z.to_nat ((size + MAX_DATA_CHUNK_SIZE - 1) / MAX_DATA_CHUNK_SIZE))
      with O by lia.
    reflexivity.
Qed.

(** The loop of [read_process_memory] when every chunk is served. *)
Lemma read_loop_served address size offsets acc (w : World) chunks a' :
  serve_reads (agent w) (map (chunk_of address size) offsets)
    = Some (chunks, a') ->
  for_in offsets (read_chunk address size) acc w
  = (Ok (acc ++ concat chunks),
     emits (map read_call (map (chunk_of address size) offsets))
           (set_agent a' w)).
Proof.
  revert acc w chunks a'.
  induction offsets as [| offset offsets IH]; intros acc w chunks a' Hs.
  - simpl in Hs. injection Hs as <- <-. simpl.
    unfold ret. by rewrite app_nil_r, set_agent_same, emits_nil.
  - simpl in Hs.
    destruct (rpc_read_process_memory (address + offset)
                (Z.min MAX_DATA_CHUNK_SIZE (size - offset)) (agent w))
      as [[e | chunk] a1] eqn:Hr; [discriminate |].
    destruct (serve_reads a1 (map (chunk_of address size) offsets))
      as [[chunks' a2] |] eqn:Hs'; [| discriminate].
    injection Hs as <- <-.
    simpl. unfold bind at 1. unfold read_chunk, bind at 1, remote.
    rewrite Hr. unfold ret at 1.
    rewrite (IH (acc ++ chunk) (emit _ (set_agent a1 w)) chunks' a2 Hs').
    rewrite <- app_assoc. f_equal. apply emits_after_call.
Qed.

(** The loop of [read_process_memory] when the chunks of [pre] are served
    and the next one faults. *)
Lemma read_loop_faulted address size pre offset post acc (w : World)
    chunks a1 e a2 :
  serve_reads (agent w) (map (chunk_of address size) pre)
    = Some (chunks, a1) ->
  rpc_read_process_memory (address + offset)
    (Z.min MAX_DATA_CHUNK_SIZE (size - offset)) a1 = (inl e, a2) ->
  for_in (pre ++ offset :: post) (read_chunk address size) acc w
  = (Raised (Frida e),
     emits (map read_call (map (chunk_of address size) (pre ++ [offset])))
           (set_agent a2 w)).
Proof.
  revert acc w chunks a1.
  induction pre as [| o pre IH]; intros acc w chunks a1 Hs Hf.
  - simpl in Hs. injection Hs as <- <-. simpl.
    unfold bind at 1. unfold read_chunk, bind at 1, remote.
    by rewrite Hf.
  - simpl in Hs.
    destruct (rpc_read_process_memory (address + o)
                (Z.min MAX_DATA_CHUNK_SIZE (size - o)) (agent w))
      as [[e' | chunk] a0] eqn:Hr; [discriminate |].
    destruct (serve_reads a0 (map (chunk_of address size) pre))
      as [[chunks' a1'] |] eqn:Hs'; [| discriminate].
    injection Hs as <- <-.
    simpl. unfold bind at 1. unfold read_chunk, bind at 1, remote.
    rewrite Hr. unfold ret at 1.
    rewrite (IH (acc ++ chunk) (emit _ (set_agent a0 w)) chunks' a1' Hs' Hf).
    f_equal. apply emits_after_call.
Qed.

(** A bulk read whose chunks are all served. *)
Lemma read_process_memory_served address size (w : World) chunks a' :
  serve_reads (agent w) (chunk_plan address size) = Some (chunks, a') ->
  read_process_memory address size w
  = (Ok (concat chunks),
     emits (map read_call (chunk_plan address size)) (set_agent a' w)).
Proof.
  intros Hs. unfold read_process_memory, try_except.
  rewrite <- py_range_chunks in Hs.
  rewrite (read_loop_served _ _ _ [] w chunks a' Hs).
  by rewrite py_range_chunks.
Qed.

End Reads.

Section ReadTheorems.

Context {Agent Driver : Type} `{FridaRpc Agent}.

Abbreviation World := (World Agent Driver).

(** C1. [read_process_memory address size] issues exactly
    [ceil(size / CHUNK)] single-chunk remote reads (none when [size <= 0]),
    chunk [k] asking for [min(CHUNK, size - k*CHUNK)] bytes at
    [address + k*CHUNK], in increasing offset order, and, the agent serving
    them all, returns the concatenation of the answers in that order;
    [CHUNK] is the constant 64 MiB. *)
Theorem read_process_memory_chunked address size (w : World) chunks a' :
  serve_reads (agent w) (chunk_plan address size) = Some (chunks, a') ->
  read_process_memory address size w
    = (Ok (concat chunks),
       emits (map read_call (chunk_plan address size)) (set_agent a' w))
  /\ length (chunk_plan address size)
     = Z.to_nat (ceil_div size MAX_DATA_CHUNK_SIZE)
  /\ (0 <= size ->
      Z.of_nat (length (chunk_plan address size))
      = ceil_div size MAX_DATA_CHUNK_SIZE)
  /\ (ceil_div size MAX_DATA_CHUNK_SIZE - 1) * MAX_DATA_CHUNK_SIZE < size
     <= ceil_div size MAX_DATA_CHUNK_SIZE * MAX_DATA_CHUNK_SIZE
  /\ (forall k : nat,
        (k < length (chunk_plan address size))%nat ->
        chunk_plan address size !! k
        = Some (address + Z.of_nat k * MAX_DATA_CHUNK_SIZE,
                Z.min MAX_DATA_CHUNK_SIZE
                      (size - Z.of_nat k * MAX_DATA_CHUNK_SIZE)))
  /\ MAX_DATA_CHUNK_SIZE = 64 * 1024 * 1024.
Proof.
  intros Hs.
  pose proof (ceil_div_spec size _ MAX_DATA_CHUNK_SIZE_pos) as Hceil.
  assert (length (chunk_plan address size)
          = Z.to_nat (ceil_div size MAX_DATA_CHUNK_SIZE)) as Hlen.
  { unfold chunk_plan. by rewrite length_map, length_seq. }
  split; [| split; [exact Hlen | split; [| split; [exact Hceil | split]]]].
  - by apply read_process_memory_served.
  - intros H0. rewrite Hlen.
    pose proof MAX_DATA_CHUNK_SIZE_pos. apply Z2Nat.id. nia.
  - intros k Hk. rewrite Hlen in Hk. unfold chunk_plan.
    rewrite list_lookup_fmap, lookup_seq_lt by exact Hk. reflexivity.
  - reflexivity.
Qed.

(** C2. When the chunks before some chunk [c] of a bulk read are served and
    the remote read of [c] faults with an [RPCException],
    [read_process_memory] raises [ReadProcessMemoryError] caused by that
    fault: no buffer is returned, and the remote reads issued are those
    before [c] and [c] itself, once. *)
Theorem read_process_memory_chunk_fault address size (w : World)
    pre c post chunks a1 args a2 :
  chunk_plan address size = pre ++ c :: post ->
  serve_reads (agent w) pre = Some (chunks, a1) ->
  rpc_read_process_memory (fst c) (snd c) a1 = (inl (RPCException args), a2) ->
  read_process_memory address size w
  = (Raised (ReadProcessMemoryError (Frida (RPCException args))),
     emits (map read_call pre ++ [read_call c]) (set_agent a2 w)).
Proof.
  intros Hplan Hs Hf.
  rewrite <- py_range_chunks in Hplan.
  apply map_eq_app in Hplan as (opre & orest & Hr & Hpre & Hrest).
  apply map_eq_cons in Hrest as (o & opost & -> & Hc & Hpost).
  subst pre c. simpl in Hf.
  unfold read_process_memory, try_except.
  rewrite Hr.
  rewrite (read_loop_faulted _ _ _ _ _ [] w chunks a1 _ a2 Hs Hf).
  simpl. unfold raise. by rewrite !map_app.
Qed.

End ReadTheorems.

Lemma read_process_memory_chunked_witness :
  exists w',
    read_process_memory 4096 (MAX_DATA_CHUNK_SIZE + 2) FakeAgent.world0
    = (Ok [Byte.x00; Byte.x00; Byte.x00; Byte.x00; Byte.x01; Byte.x01], w')
    /\ trace w'
       = [Rpc (CallReadProcessMemory 4096 MAX_DATA_CHUNK_SIZE);
          Rpc (CallReadProcessMemory (4096 + MAX_DATA_CHUNK_SIZE) 2)].
Proof.
  eexists. split.
  - apply (read_process_memory_chunked (Driver := list (Z * Z)) 4096
             (MAX_DATA_CHUNK_SIZE + 2) FakeAgent.world0
             [[Byte.x00; Byte.x00; Byte.x00; Byte.x00]; [Byte.x01; Byte.x01]]
             (FakeAgent.tick (FakeAgent.tick FakeAgent.init))).
    vm_compute. reflexivity.
  - vm_compute. reflexivity.
Defined.

Lemma read_process_memory_chunk_fault_witness :
  exists w',
    read_process_memory (2147483648 - MAX_DATA_CHUNK_SIZE)
                        (MAX_DATA_CHUNK_SIZE + 2) FakeAgent.world0
    = (Raised (ReadProcessMemoryError (Frida FakeAgent.fault)), w')
    /\ trace w'
       = [Rpc (CallReadProcessMemory (2147483648 - MAX_DATA_CHUNK_SIZE)
                                     MAX_DATA_CHUNK_SIZE);
          Rpc (CallReadProcessMemory 2147483648 2)].
Proof.
  eexists. split.
  - apply (read_process_memory_chunk_fault (Driver := list (Z * Z))
             (2147483648 - MAX_DATA_CHUNK_SIZE) (MAX_DATA_CHUNK_SIZE + 2)
             FakeAgent.world0
             [(2147483648 - MAX_DATA_CHUNK_SIZE, MAX_DATA_CHUNK_SIZE)]
             (2147483648, 2) []
             [[Byte.x00; Byte.x00; Byte.x00; Byte.x00]]
             (FakeAgent.tick FakeAgent.init)
             ["access violation"] (FakeAgent.tick FakeAgent.init)).
    + vm_compute. reflexivity.
    + vm_compute. reflexivity.
    + vm_compute. reflexivity.
  - vm_compute. reflexivity.
Defined.

(** ** Architecture translation *)

(** C4. [_str_to_architecture] maps ["ia32"] to [X86_32] and ["x64"] to
    [X86_64], two different values, and no other string to either; every
    other string raises [ValueError], which is none of
    [QueryProcessMemoryError], [ReadProcessMemoryError] and
    [WriteProcessMemoryError]. *)
Theorem str_to_architecture_mapping (frida_arch : string) :
  (_str_to_architecture frida_arch = Ok X86_32 <-> frida_arch = "ia32")
  /\ (_str_to_architecture frida_arch = Ok X86_64 <-> frida_arch = "x64")
  /\ (_str_to_architecture frida_arch = Raised ValueError
      <-> frida_arch <> "ia32" /\ frida_arch <> "x64")
  /\ (forall e, _str_to_architecture frida_arch = Raised e ->
                e = ValueError /\ is_memory_error e = false)
  /\ X86_32 <> X86_64.
Proof.
  unfold _str_to_architecture.
  destruct (String.eqb_spec frida_arch "ia32") as [-> | H32];
    [| destruct (String.eqb_spec frida_arch "x64") as [-> | H64]];
    repeat split;
    try discriminate; try tauto; try congruence;
    try (intros [? ?]; congruence);
    try (intros e He; injection He as <-; reflexivity);
    try (match goal with Heq : Raised _ = Raised _ |- _ =>
           injection Heq as <-; reflexivity end).
Qed.

Lemma str_to_architecture_mapping_witness :
  _str_to_architecture "ia32" = Ok X86_32
  /\ _str_to_architecture "x64" = Ok X86_64
  /\ _str_to_architecture "arm64" = Raised ValueError.
Proof.
  destruct (str_to_architecture_mapping "ia32") as ((_ & H32) & _).
  destruct (str_to_architecture_mapping "x64") as (_ & (_ & H64) & _).
  destruct (str_to_architecture_mapping "arm64") as (_ & _ & (_ & Hother) & _).
  split; [exact (H32 eq_refl) |].
  split; [exact (H64 eq_refl) |].
  apply Hother. split; discriminate.
Defined.

(** ** Error translation of the single-call operations *)

Section Translation.

Context {Agent Driver : Type} `{FridaRpc Agent}.

Abbreviation World := (World Agent Driver).

Lemma query_memory_protection_run address (w : World) :
  query_memory_protection address w
  = (match fst (rpc_query_memory_protection address (agent w)) with
     | inr protection => Ok protection
     | inl (RPCException args) =>
         Raised (QueryProcessMemoryError (Frida (RPCException args)))
     | inl e => Raised (Frida e)
     end,
     emits [Rpc (CallQueryMemoryProtection address)]
           (set_agent (snd (rpc_query_memory_protection address (agent w))) w)).
Proof.
  unfold query_memory_protection, try_except, remote.
  destruct (rpc_query_memory_protection address (agent w)) as [[[args | msg] | p] a'];
    reflexivity.
Qed.

Lemma write_process_memory_run address data (w : World) :
  write_process_memory address data w
  = (match fst (rpc_write_process_memory address data (agent w)) with
     | inr u => Ok u
     | inl (RPCException args) =>
         Raised (WriteProcessMemoryError (Frida (RPCException args)))
     | inl e => Raised (Frida e)
     end,
     emits [Rpc (CallWriteProcessMemory address data)]
           (set_agent (snd (rpc_write_process_memory address data (agent w))) w)).
Proof.
  unfold write_process_memory, try_except, remote.
  destruct (rpc_write_process_memory address data (agent w))
    as [[[args | msg] | p] a']; reflexivity.
Qed.

(** C9. [query_memory_protection] raises [QueryProcessMemoryError], and
    [write_process_memory] raises [WriteProcessMemoryError], exactly when
    the one remote call they make faults with an [RPCException], and then
    with that fault as the cause; when the remote call succeeds the first
    returns the agent's protection string as it is and the second returns
    [None] without raising. *)
Theorem query_write_error_translation address data (w : World) :
  (forall cause,
     fst (query_memory_protection address w)
       = Raised (QueryProcessMemoryError cause)
     <-> exists args,
           fst (rpc_query_memory_protection address (agent w))
             = inl (RPCException args)
           /\ cause = Frida (RPCException args))
  /\ (forall protection,
        fst (rpc_query_memory_protection address (agent w)) = inr protection
        <-> fst (query_memory_protection address w) = Ok protection)
  /\ trace (snd (query_memory_protection address w))
     = trace w ++ [Rpc (CallQueryMemoryProtection address)]
  /\ (forall cause,
        fst (write_process_memory address data w)
          = Raised (WriteProcessMemoryError cause)
        <-> exists args,
              fst (rpc_write_process_memory address data (agent w))
                = inl (RPCException args)
              /\ cause = Frida (RPCException args))
  /\ (fst (rpc_write_process_memory address data (agent w)) = inr tt
      <-> fst (write_process_memory address data w) = Ok tt)
  /\ trace (snd (write_process_memory address data w))
     = trace w ++ [Rpc (CallWriteProcessMemory address data)].
Proof.
  rewrite query_memory_protection_run, write_process_memory_run. simpl.
  destruct (rpc_query_memory_protection address (agent w))
    as [[[qargs | qmsg] | p] qa];
  destruct (rpc_write_process_memory address data (agent w))
    as [[[wargs | wmsg] | []] wa]; simpl;
  repeat split;
    try (intros Heq; first [discriminate Heq | congruence]);
    try (intros (args & Heq & Hc); first [discriminate Heq | congruence]);
    try (intros Heq; injection Heq as <-; eexists; split; reflexivity).
Qed.

End Translation.

Lemma query_write_error_translation_witness :
  fst (query_memory_protection 2147483648 FakeAgent.world0)
  = Raised (QueryProcessMemoryError (Frida FakeAgent.fault))
  /\ fst (write_process_memory 2147483648 [144] FakeAgent.world0)
     = Raised (WriteProcessMemoryError (Frida FakeAgent.fault))
  /\ fst (query_memory_protection 4096 FakeAgent.world0) = Ok "rw-".
Proof.
  destruct (query_write_error_translation (Driver := list (Z * Z))
              2147483648 [144] FakeAgent.world0) as (Hq & _ & _ & Hw & _).
  destruct (query_write_error_translation (Driver := list (Z * Z))
              4096 [144] FakeAgent.world0) as (_ & Hok & _).
  split; [apply Hq; eexists; split; reflexivity |].
  split; [apply Hw; eexists; split; reflexivity |].
  apply Hok. reflexivity.
Defined.

Example fake_query_faults :
  fst (query_memory_protection 2147483648 FakeAgent.world0)
  = Raised (QueryProcessMemoryError (Frida FakeAgent.fault))
  /\ fst (query_memory_protection 4096 FakeAgent.world0) = Ok "rw-"
  /\ fst (query_memory_protection 0 FakeAgent.world0)
     = Raised (Frida (InvalidOperationError "script has been destroyed")).
Proof. repeat split. Qed.

Example fake_write_faults :
  fst (write_process_memory 2147483648 [144] FakeAgent.world0)
  = Raised (WriteProcessMemoryError (Frida FakeAgent.fault))
  /\ fst (write_process_memory 4096 [144] FakeAgent.world0) = Ok tt.
Proof. repeat split. Qed.

(** ** [int(s, 16)] on hexadecimal strings *)

Lemma hex_digit_facts c d :
  hex_digit_value c = Some d ->
  is_space c = false /\ is_underscore c = false
  /\ Ascii.eqb c "+" = false /\ Ascii.eqb c "-" = false
  /\ Ascii.eqb c "x" = false /\ Ascii.eqb c "X" = false
  /\ 0 <= d < 16.
Proof.
  destruct c as [[] [] [] [] [] [] [] []]; vm_compute; intros Hd;
    try discriminate Hd; injection Hd as <-;
    repeat split; try reflexivity; try discriminate.
Qed.

Lemma hex_digits_value_nonneg s acc :
  all_hex_digits s = true -> 0 <= acc -> 0 <= hex_digits_value s acc.
Proof.
  revert acc. induction s as [| c s IH]; intros acc Hall Hacc; simpl in *.
  - exact Hacc.
  - apply andb_prop in Hall as [Hc Hs].
    apply bool_decide_eq_true in Hc as [d Hd].
    apply IH; [exact Hs |].
    rewrite Hd. simpl. pose proof (hex_digit_facts c d Hd). lia.
Qed.

Lemma scan_hex_digits_all s n acc :
  all_hex_digits s = true ->
  scan_hex_digits s false n acc
  = match s, n with
    | EmptyString, O => None
    | _, _ => Some (hex_digits_value s acc, EmptyString)
    end.
Proof.
  revert n acc. induction s as [| c s IH]; intros n acc Hall.
  - destruct n; reflexivity.
  - simpl in Hall. apply andb_prop in Hall as [Hc Hs].
    apply bool_decide_eq_true in Hc as [d Hd].
    destruct (hex_digit_facts c d Hd) as (_ & Hus & _).
    simpl. rewrite Hus, Hd. rewrite (IH (S n) _ Hs). simpl.
    destruct s; reflexivity.
Qed.

(** A non-empty run of hexadecimal digits, with nothing before it. *)
Lemma parse_hex_digits_all c ds :
  all_hex_digits (String c ds) = true ->
  parse_hex_digits 1 (String c ds) = Some (hex_digits_value (String c ds) 0).
Proof.
  intros Hall. unfold parse_hex_digits.
  rewrite (scan_hex_digits_all _ 0 0 Hall).
  simpl in Hall. apply andb_prop in Hall as [Hc _].
  apply bool_decide_eq_true in Hc as [d Hd].
  destruct (hex_digit_facts c d Hd) as (_ & Hus & _).
  simpl starts_with_underscore. rewrite Hus. simpl skip_spaces.
  by rewrite Z.mul_1_l.
Qed.

Lemma strip_hex_prefix_digits c ds :
  all_hex_digits (String c ds) = true ->
  strip_hex_prefix (String c ds) = String c ds.
Proof.
  intros Hall. destruct ds as [| c' ds']; [reflexivity |].
  simpl in Hall. apply andb_prop in Hall as [_ Hall].
  apply andb_prop in Hall as [Hc' _].
  apply bool_decide_eq_true in Hc' as [d' Hd'].
  destruct (hex_digit_facts c' d' Hd') as (_ & _ & _ & _ & Hx & HX & _).
  unfold strip_hex_prefix. rewrite Hx, HX. simpl.
  by rewrite andb_false_r.
Qed.

(** Python's [int(s, 16)] reads a hexadecimal string as the unsigned
    integer it denotes. *)
Lemma parse_hex_hex_string s :
  is_hex_string s = true ->
  parse_hex s = Some (hex_value s) /\ 0 <= hex_value s.
Proof.
  unfold is_hex_string, hex_value. intros Hhex.
  destruct (drop_0x s) as [| c ds] eqn:Hdrop; [discriminate |].
  split; [| apply hex_digits_value_nonneg; [exact Hhex | lia]].
  pose proof Hhex as Hall. simpl in Hall.
  apply andb_prop in Hall as [Hc Hds].
  apply bool_decide_eq_true in Hc as [d Hd].
  destruct (hex_digit_facts c d Hd) as (Hsp & Hus & Hplus & Hminus & _).
  unfold drop_0x in Hdrop.
  destruct s as [| c0 [| c1 s']].
  - discriminate.
  - injection Hdrop as -> ->.
    unfold parse_hex. simpl skip_spaces. rewrite Hsp.
    unfold strip_sign. rewrite Hplus, Hminus.
    rewrite (strip_hex_prefix_digits _ _ Hhex).
    apply parse_hex_digits_all, Hhex.
  - destruct (Ascii.eqb c0 "0"
              && (Ascii.eqb c1 "x" || Ascii.eqb c1 "X")) eqn:Hpre.
    + subst s'.
      apply andb_prop in Hpre as [H0 Hx].
      apply Ascii.eqb_eq in H0 as ->.
      unfold parse_hex. simpl skip_spaces. unfold strip_sign. simpl.
      unfold strip_hex_prefix. rewrite Hx. simpl.
      rewrite Hus. apply parse_hex_digits_all, Hhex.
    + injection Hdrop as -> ->.
      unfold parse_hex. simpl skip_spaces. rewrite Hsp.
      unfold strip_sign. rewrite Hplus, Hminus.
      rewrite (strip_hex_prefix_digits _ _ Hhex).
      apply parse_hex_digits_all, Hhex.
Qed.

(** ** The event handler *)

Section CallbackTheorems.

Context {Agent Driver : Type}.

Abbreviation World := (World Agent Driver).

Lemma py_getitem_get v k x default :
  py_getitem v k = Ok x -> py_get v k default = Ok x.
Proof.
  destruct v; simpl; try discriminate.
  destruct (dict_lookup k d); [tauto | discriminate].
Qed.

(** C3. On a [send] message whose payload has [event] ["oep_reached"] and
    hexadecimal strings [BASE] and [OEP], the handler invokes the callback
    once, with the two unsigned integers the strings denote, does nothing
    else (no remote call, no log record), and returns normally when the
    callback does. *)
Theorem frida_callback_oep_reached
    (notify : Z -> Z -> Driver -> res unit * Driver)
    message data (w : World) payload base_str oep_str d' :
  py_getitem message "type" = Ok (PyStr "send") ->
  py_getitem message "payload" = Ok payload ->
  py_getitem payload "event" = Ok (PyStr "oep_reached") ->
  py_getitem payload "BASE" = Ok (PyStr base_str) ->
  py_getitem payload "OEP" = Ok (PyStr oep_str) ->
  is_hex_string base_str = true ->
  is_hex_string oep_str = true ->
  notify (hex_value base_str) (hex_value oep_str) (driver w) = (Ok tt, d') ->
  _frida_callback notify message data w
  = (Ok tt,
     set_driver d'
       (emits [Notify (hex_value base_str) (hex_value oep_str)] w))
  /\ 0 <= hex_value base_str /\ 0 <= hex_value oep_str.
Proof.
  intros Htype Hpayload Hevent Hbase Hoep Hb Ho Hn.
  destruct (parse_hex_hex_string _ Hb) as [Hpb Hb0].
  destruct (parse_hex_hex_string _ Ho) as [Hpo Ho0].
  split; [| split; assumption].
  unfold _frida_callback, bind, lift, ret, call_notify.
  rewrite Htype, Hpayload, (py_getitem_get _ _ _ _ Hevent), Hbase, Hoep.
  unfold py_int16. rewrite Hpb, Hpo.
  change (py_eq_str (PyStr "send") "error") with false.
  change (py_eq_str (PyStr "send") "send") with true.
  change (py_eq_str (PyStr "oep_reached") "oep_reached") with true.
  cbv beta iota. unfold emit. cbn [driver]. rewrite Hn. reflexivity.
Qed.

(** C7. A message whose [type] is neither ["error"] nor ["send"], and a
    [send] message whose payload's [event] (the empty string when the
    payload has none) is not ["oep_reached"], make the handler raise
    [NotImplementedError]; the callback is not invoked and nothing else
    happens. *)
Theorem frida_callback_not_implemented
    (notify : Z -> Z -> Driver -> res unit * Driver)
    message data (w : World) msg_type :
  py_getitem message "type" = Ok msg_type ->
  (py_eq_str msg_type "error" = false /\ py_eq_str msg_type "send" = false)
  \/ (msg_type = PyStr "send"
      /\ exists payload event,
           py_getitem message "payload" = Ok payload
           /\ py_get payload "event" (PyStr EmptyString) = Ok event
           /\ py_eq_str event "oep_reached" = false) ->
  _frida_callback notify message data w
  = (Raised (NotImplementedError "Unknown message received"), w).
Proof.
  intros Htype [[Herr Hsend] | [-> (payload & event & Hp & He & Hne)]].
  - unfold _frida_callback, bind, lift, ret, raise.
    by rewrite Htype, Herr, Hsend.
  - unfold _frida_callback, bind, lift, ret, raise.
    rewrite Htype, Hp, He, Hne.
    change (py_eq_str (PyStr "send") "error") with false.
    change (py_eq_str (PyStr "send") "send") with true.
    reflexivity.
Qed.

(** C8, as the code has it. A message of [type] ["error"] that carries a
    [stack] is logged, then its stack is logged, and the handler returns
    normally: the callback is not invoked, and no remote call is made. *)
Theorem frida_callback_error_logged
    (notify : Z -> Z -> Driver -> res unit * Driver)
    message data (w : World) stack :
  py_getitem message "type" = Ok (PyStr "error") ->
  py_getitem message "stack" = Ok stack ->
  _frida_callback notify message data w
  = (Ok tt, emits [LogError message; LogError stack] w).
Proof.
  intros Htype Hstack.
  unfold _frida_callback, bind, lift, ret, log_error.
  rewrite Htype, Hstack.
  change (py_eq_str (PyStr "error") "error") with true.
  cbv beta iota. by rewrite !emit_emits, emits_emits.
Qed.

(** Without a [stack] the second log statement raises [KeyError], after
    the message itself has been logged. *)
Lemma frida_callback_error_no_stack
    (notify : Z -> Z -> Driver -> res unit * Driver)
    message data (w : World) :
  py_getitem message "type" = Ok (PyStr "error") ->
  py_getitem message "stack" = Raised (KeyError "stack") ->
  _frida_callback notify message data w
  = (Raised (KeyError "stack"), emits [LogError message] w).
Proof.
  intros Htype Hstack.
  unfold _frida_callback, bind, lift, ret, log_error.
  rewrite Htype, Hstack.
  change (py_eq_str (PyStr "error") "error") with true.
  reflexivity.
Qed.

End CallbackTheorems.

Lemma frida_callback_oep_reached_witness :
  exists w',
    _frida_callback FakeAgent.record_oep oep_message None FakeAgent.world0
    = (Ok tt, w')
    /\ trace w' = [Notify 4096 4660]
    /\ driver w' = [(4096, 4660)].
Proof.
  eexists. split.
  - apply (frida_callback_oep_reached FakeAgent.record_oep oep_message None
             FakeAgent.world0
             (PyDict [("event", PyStr "oep_reached");
                      ("BASE", PyStr "0x1000"); ("OEP", PyStr "0x1234")])
             "0x1000" "0x1234" [(4096, 4660)]);
      reflexivity.
  - split; reflexivity.
Defined.

Lemma frida_callback_not_implemented_witness :
  _frida_callback FakeAgent.record_oep unknown_event_message None
                  FakeAgent.world0
  = (Raised (NotImplementedError "Unknown message received"),
     FakeAgent.world0).
Proof.
  apply (frida_callback_not_implemented FakeAgent.record_oep
           unknown_event_message None FakeAgent.world0 (PyStr "send")).
  - reflexivity.
  - right. split; [reflexivity |].
    exists (PyDict [("event", PyStr "unknown")]), (PyStr "unknown").
    repeat split; reflexivity.
Defined.

Lemma frida_callback_error_logged_witness :
  _frida_callback FakeAgent.record_oep error_message None FakeAgent.world0
  = (Ok tt, emits [LogError error_message; LogError (PyStr "at frida.js:1")]
                  FakeAgent.world0).
Proof.
  apply (frida_callback_error_logged FakeAgent.record_oep error_message None
           FakeAgent.world0 (PyStr "at frida.js:1"));
    reflexivity.
Defined.

(** An [error] message without a [stack] is a message of type ["error"],
    and the handler raises on it. *)
Lemma frida_callback_error_may_raise :
  ~ (forall (message : pyval) (w : World FakeAgent.state (list (Z * Z))),
       py_getitem message "type" = Ok (PyStr "error") ->
       exists w',
         _frida_callback FakeAgent.record_oep message None w = (Ok tt, w')).
Proof.
  intros Hall.
  destruct (Hall error_message_without_stack FakeAgent.world0 eq_refl)
    as [w' Hw'].
  rewrite (frida_callback_error_no_stack FakeAgent.record_oep
             error_message_without_stack None FakeAgent.world0
             eq_refl eq_refl) in Hw'.
  discriminate Hw'.
Qed.

(** ** The export cache *)

Lemma export_keys_length value keys :
  export_keys value = Some keys -> length keys = length value.
Proof.
  revert keys. induction value as [| e value IH]; intros keys Hk; simpl in Hk.
  - by injection Hk as <-.
  - destruct (export_key e); [| discriminate].
    destruct (export_keys value) as [ks |]; [| discriminate].
    injection Hk as <-. simpl. f_equal. by apply IH.
Qed.

(** What the dict comprehension builds from [m0]: every key of the list is
    bound, keys outside the list keep their binding, and a key is bound to
    the record of its last occurrence. *)
Lemma exports_dict_of_keys value keys (m0 : gmap Z pyval) :
  export_keys value = Some keys ->
  exists m,
    exports_dict_of value m0 = Ok m
    /\ dom m = dom m0 ∪ list_to_set keys
    /\ (forall k, k ∉ keys -> m !! k = m0 !! k)
    /\ (forall (i : nat) k e,
          keys !! i = Some k -> value !! i = Some e ->
          (forall j : nat, (i < j)%nat -> keys !! j <> Some k) ->
          m !! k = Some e).
Proof.
  revert keys m0.
  induction value as [| e0 value IH]; intros keys m0 Hk; simpl in Hk.
  - injection Hk as <-. exists m0. repeat split.
    + simpl. set_solver.
    + intros i k e Hi. by rewrite lookup_nil in Hi.
  - unfold export_key in Hk. simpl.
    destruct (py_getitem e0 "address") as [a |]; [| discriminate].
    destruct (py_int16 a) as [k0 |]; [| discriminate].
    destruct (export_keys value) as [ks |] eqn:Hks; [| discriminate].
    injection Hk as <-.
    destruct (IH ks (<[k0 := e0]> m0) eq_refl) as (m & Hm & Hdom & Hout & Hlast).
    exists m. split; [exact Hm |]. split; [| split].
    + rewrite Hdom, dom_insert_L. simpl. set_solver.
    + intros k Hnot. apply not_elem_of_cons in Hnot as [Hne Hnot].
      rewrite (Hout k Hnot). by rewrite lookup_insert_ne.
    + intros [| i] k e Hi He Hlater; simpl in Hi, He.
      * injection Hi as <-. injection He as <-.
        rewrite Hout; [apply lookup_insert_eq |].
        intros Hin. apply list_elem_of_lookup in Hin as [j Hj].
        apply (Hlater (S j)); [lia | exact Hj].
      * apply (Hlast i k e Hi He).
        intros j Hj. apply (Hlater (S j)). lia.
Qed.

Lemma size_list_to_set_le (l : list Z) :
  (size (list_to_set l : gset Z) <= length l)%nat.
Proof.
  induction l as [| x l IH]; cbn [length].
  - by rewrite list_to_set_nil, size_empty.
  - rewrite list_to_set_cons.
    destruct (decide (x ∈ (list_to_set l : gset Z))) as [Hin | Hout].
    + replace ({[x]} ∪ list_to_set l) with (list_to_set l : gset Z)
        by set_solver.
      lia.
    + rewrite size_union by set_solver. rewrite size_singleton. lia.
Qed.

Section CacheTheorems.

Context {Agent Driver : Type} `{FridaRpc Agent}.

Abbreviation World := (World Agent Driver).

Lemma enumerate_exported_functions_cached cached (w : World) :
  exported_functions_cache w = Some cached ->
  enumerate_exported_functions false w = (Ok cached, w).
Proof.
  intros Hc.
  unfold enumerate_exported_functions, bind, get_exported_functions_cache.
  by rewrite Hc.
Qed.

Lemma enumerate_exported_functions_fresh update_cache (w : World) value a' m :
  exported_functions_cache w = None \/ update_cache = true ->
  rpc_enumerate_exported_functions (agent w) = (inr value, a') ->
  exports_dict_of value ∅ = Ok m ->
  enumerate_exported_functions update_cache w
  = (Ok (length (heap w)), enumerated a' m w).
Proof.
  intros Hc Hr Hm.
  assert (match exported_functions_cache w with
          | None => true
          | Some _ => update_cache
          end = true) as Hgo.
  { destruct Hc as [-> | ->]; [reflexivity |].
    by destruct (exported_functions_cache w). }
  unfold enumerate_exported_functions, bind at 1, get_exported_functions_cache.
  assert (forall c : World -> res nat * World,
            match exported_functions_cache w with
            | None => c
            | Some cached => if update_cache then c else ret cached
            end = c) as ->.
  { intros c. destruct (exported_functions_cache w); [| reflexivity].
    by rewrite Hgo. }
  unfold bind, remote, lift, alloc, set_exported_functions_cache, ret.
  rewrite Hr, Hm. reflexivity.
Qed.

(** C5. With the cache populated and [update_cache] false,
    [enumerate_exported_functions] returns the cached mapping and does
    nothing else; with the cache unset ([None]) or [update_cache] true it
    makes one remote enumeration, builds a fresh mapping whose keys are the
    records' addresses parsed as hexadecimal, stores it as the cache and
    returns it. After a call that returned, a call without [update_cache]
    returns the same mapping object and leaves everything as it is. *)
Theorem enumerate_exported_functions_caching update_cache (w : World) :
  (forall cached,
     exported_functions_cache w = Some cached -> update_cache = false ->
     enumerate_exported_functions update_cache w = (Ok cached, w))
  /\ (forall value a' keys,
        exported_functions_cache w = None \/ update_cache = true ->
        rpc_enumerate_exported_functions (agent w) = (inr value, a') ->
        export_keys value = Some keys ->
        exists m,
          enumerate_exported_functions update_cache w
            = (Ok (length (heap w)), enumerated a' m w)
          /\ heap (enumerated a' m w) !! length (heap w) = Some m
          /\ exported_functions_cache (enumerated a' m w)
             = Some (length (heap w))
          /\ dom m = list_to_set keys
          /\ (forall k e, m !! k = Some e ->
                          e ∈ value /\ export_key e = Ok k))
  /\ (forall exports w1,
        enumerate_exported_functions update_cache w = (Ok exports, w1) ->
        enumerate_exported_functions false w1 = (Ok exports, w1)).
Proof.
  split; [| split].
  - intros cached Hc ->. by apply enumerate_exported_functions_cached.
  - intros value a' keys Hc Hr Hk.
    destruct (exports_dict_of_keys value keys ∅ Hk)
      as (m & Hm & Hdom & Hout & Hlast).
    exists m. split; [by eapply enumerate_exported_functions_fresh |].
    split; [| split; [reflexivity | split]].
    + simpl. by rewrite lookup_app_r, Nat.sub_diag.
    + rewrite Hdom, dom_empty_L. set_solver.
    + intros k e Hke.
      assert (k ∈ keys) as Hin.
      { destruct (decide (k ∈ keys)) as [| Hnot]; [done |].
        rewrite (Hout k Hnot), lookup_empty in Hke. discriminate. }
      clear Hdom Hout Hm Hr Hc.
      revert keys Hk Hin Hlast.
      induction value as [| e0 value IH]; intros keys Hk Hin Hlast;
        simpl in Hk.
      { injection Hk as <-. by apply elem_of_nil in Hin. }
      destruct (export_key e0) as [k0 |] eqn:Hk0; [| discriminate].
      destruct (export_keys value) as [ks |] eqn:Hks; [| discriminate].
      injection Hk as <-.
      destruct (decide (k ∈ ks)) as [Hks_in | Hks_out].
      * destruct (IH ks eq_refl Hks_in) as [Hev Hek].
        { intros i k' e' Hi He' Hl. apply (Hlast (S i) k' e' Hi He').
          intros [| j] Hj; [lia |]. simpl. apply Hl. lia. }
        split; [by apply elem_of_cons; right | exact Hek].
      * apply elem_of_cons in Hin as [-> | Hin]; [| contradiction].
        assert (m !! k0 = Some e0) as Hm0.
        { apply (Hlast O k0 e0 eq_refl eq_refl).
          intros [| j] Hj; [lia |]. simpl. intros Hj'.
          apply Hks_out. apply list_elem_of_lookup. by exists j. }
        rewrite Hm0 in Hke. injection Hke as <-.
        split; [by apply elem_of_cons; left | exact Hk0].
  - intros exports w1 Hrun.
    apply enumerate_exported_functions_cached.
    unfold enumerate_exported_functions, bind at 1,
      get_exported_functions_cache in Hrun.
    destruct (exported_functions_cache w) as [cached |] eqn:Hc.
    + destruct update_cache.
      * unfold bind, remote, lift, alloc, set_exported_functions_cache, ret
          in Hrun.
        destruct (rpc_enumerate_exported_functions (agent w)) as [[e | value] a'];
          [discriminate |].
        destruct (exports_dict_of value ∅); [| discriminate].
        by injection Hrun as <- <-.
      * unfold ret in Hrun. by injection Hrun as <- <-.
    + unfold bind, remote, lift, alloc, set_exported_functions_cache, ret
        in Hrun.
      destruct (rpc_enumerate_exported_functions (agent w)) as [[e | value] a'];
        [discriminate |].
      destruct (exports_dict_of value ∅); [| discriminate].
      by injection Hrun as <- <-.
Qed.

(** C10. When the enumeration answers with records of which several have
    addresses that parse to the same integer, the mapping that is built,
    cached and returned binds that integer to the record that comes last
    in the list; its keys are the distinct parsed addresses, so it may
    have fewer entries than the list has records. *)
Theorem exported_functions_last_wins update_cache (w : World) value a' keys :
  exported_functions_cache w = None \/ update_cache = true ->
  rpc_enumerate_exported_functions (agent w) = (inr value, a') ->
  export_keys value = Some keys ->
  exists m,
    enumerate_exported_functions update_cache w
      = (Ok (length (heap w)), enumerated a' m w)
    /\ heap (enumerated a' m w) !! length (heap w) = Some m
    /\ exported_functions_cache (enumerated a' m w) = Some (length (heap w))
    /\ dom m = list_to_set keys
    /\ (forall (i : nat) k e,
          keys !! i = Some k -> value !! i = Some e ->
          (forall j : nat, (i < j)%nat -> keys !! j <> Some k) ->
          m !! k = Some e)
    /\ (size m <= length value)%nat.
Proof.
  intros Hc Hr Hk.
  destruct (exports_dict_of_keys value keys ∅ Hk)
    as (m & Hm & Hdom & Hout & Hlast).
  assert (dom m = list_to_set keys) as Hdom'.
  { rewrite Hdom, dom_empty_L. set_solver. }
  exists m. split; [by eapply enumerate_exported_functions_fresh |].
  split; [| split; [reflexivity | split; [exact Hdom' | split; [exact Hlast |]]]].
  - simpl. by rewrite lookup_app_r, Nat.sub_diag.
  - rewrite <- size_dom, Hdom', <- (export_keys_length _ _ Hk).
    apply size_list_to_set_le.
Qed.

End CacheTheorems.

Lemma enumerate_exported_functions_caching_witness :
  exists m,
    enumerate_exported_functions false FakeAgent.world0
    = (Ok O, enumerated fake_agent_after_enumeration m FakeAgent.world0)
    /\ enumerate_exported_functions false
         (enumerated fake_agent_after_enumeration m FakeAgent.world0)
       = (Ok O, enumerated fake_agent_after_enumeration m FakeAgent.world0)
    /\ dom m = list_to_set [4096; 8192; 4096].
Proof.
  destruct (enumerate_exported_functions_caching (Driver := list (Z * Z))
              false FakeAgent.world0) as (_ & Hfresh & Hagain).
  destruct (Hfresh fake_exports_1 fake_agent_after_enumeration
              [4096; 8192; 4096])
    as (m & Hrun & _ & _ & Hdom & _);
    [left; reflexivity | reflexivity | reflexivity |].
  exists m. split; [exact Hrun |].
  split; [exact (Hagain _ _ Hrun) | exact Hdom].
Defined.

Lemma exported_functions_last_wins_witness :
  exists m,
    enumerate_exported_functions false FakeAgent.world0
    = (Ok O, enumerated fake_agent_after_enumeration m FakeAgent.world0)
    /\ m !! 4096 = Some (FakeAgent.export_record "0x1000" "h")
    /\ m !! 8192 = Some (FakeAgent.export_record "0x2000" "g")
    /\ (size m <= 3)%nat.
Proof.
  destruct (exported_functions_last_wins (Driver := list (Z * Z))
              false FakeAgent.world0 fake_exports_1
              fake_agent_after_enumeration [4096; 8192; 4096])
    as (m & Hrun & _ & _ & _ & Hlast & Hsize);
    [left; reflexivity | reflexivity | reflexivity |].
  exists m. split; [exact Hrun |].
  split; [| split; [| exact Hsize]].
  - apply (Hlast 2%nat); [reflexivity | reflexivity |].
    intros [| [| [| j]]] Hj; try lia; discriminate.
  - apply (Hlast 1%nat); [reflexivity | reflexivity |].
    intros [| [| [| j]]] Hj; try lia; discriminate.
Defined.

(** ** Range lookups *)

(** The chunks of a bulk read of [size >= 0] bytes ask for [size] bytes in
    all. *)
Lemma chunk_sizes_total (n : nat) size :
  0 <= size ->
  n = Z.to_nat (ceil_div size MAX_DATA_CHUNK_SIZE) ->
  sum_Z (map (fun k => Z.min MAX_DATA_CHUNK_SIZE
                             (size - Z.of_nat k * MAX_DATA_CHUNK_SIZE))
             (seq 0 n)) = size.
Proof.
  pose proof MAX_DATA_CHUNK_SIZE_pos as Hc. unfold sum_Z.
  revert size. induction n as [| n IH]; intros size Hsize Hn.
  - pose proof (ceil_div_spec size _ Hc). simpl. nia.
  - pose proof (ceil_div_spec size _ Hc) as Hq.
    cbn [seq map foldr]. rewrite <- seq_shift, map_map.
    destruct (Z_le_gt_dec size MAX_DATA_CHUNK_SIZE) as [Hle | Hgt].
    + assert (n = O) as -> by nia.
      simpl. lia.
    + rewrite (map_ext _ (fun k => Z.min MAX_DATA_CHUNK_SIZE
                            (size - MAX_DATA_CHUNK_SIZE
                             - Z.of_nat k * MAX_DATA_CHUNK_SIZE)))
        by (intros k; f_equal; lia).
      rewrite (IH (size - MAX_DATA_CHUNK_SIZE)).
      * simpl. lia.
      * lia.
      * unfold ceil_div in *.
        replace (size - MAX_DATA_CHUNK_SIZE + MAX_DATA_CHUNK_SIZE - 1)
          with (size + MAX_DATA_CHUNK_SIZE - 1 + (-1) * MAX_DATA_CHUNK_SIZE)
          by lia.
        rewrite Z.div_add by lia. lia.
Qed.

Lemma chunk_plan_total address size :
  0 <= size -> sum_Z (map snd (chunk_plan address size)) = size.
Proof.
  intros Hsize. unfold chunk_plan. rewrite map_map. simpl.
  by apply chunk_sizes_total.
Qed.

Lemma concat_length_sum (plan : list (Z * Z)) (chunks : list bytes) :
  Forall2 (fun c chunk => Z.of_nat (length chunk) = snd c) plan chunks ->
  Z.of_nat (length (concat chunks)) = sum_Z (map snd plan).
Proof.
  induction 1 as [| c chunk plan chunks Hc _ IH]; [reflexivity |].
  simpl. rewrite length_app, Nat2Z.inj_add, Hc, IH. reflexivity.
Qed.

Section RangeTheorems.

Context {Agent Driver : Type} `{FridaRpc Agent}.

Abbreviation World := (World Agent Driver).

Lemma read_loop_inv address size offsets acc (w : World) d w' :
  for_in offsets (read_chunk address size) acc w = (Ok d, w') ->
  exists chunks a',
    serve_reads (agent w) (map (chunk_of address size) offsets)
      = Some (chunks, a')
    /\ d = acc ++ concat chunks.
Proof.
  revert acc w.
  induction offsets as [| offset offsets IH]; intros acc w Hrun.
  - simpl in Hrun. unfold ret in Hrun. injection Hrun as <- <-.
    exists [], (agent w). by rewrite app_nil_r.
  - simpl in Hrun. unfold bind at 1 in Hrun.
    unfold read_chunk at 1, bind at 1, remote in Hrun. simpl.
    destruct (rpc_read_process_memory (address + offset)
                (Z.min MAX_DATA_CHUNK_SIZE (size - offset)) (agent w))
      as [[e | chunk] a1]; [discriminate |].
    unfold ret at 1 in Hrun.
    destruct (IH _ _ Hrun) as (chunks & a' & Hs & ->).
    simpl in Hs. rewrite Hs.
    exists (chunk :: chunks), a'. by rewrite <- app_assoc.
Qed.

(** A bulk read that returns has had every chunk of its plan served, and
    returns the answers in order. *)
Lemma read_process_memory_inv address size (w : World) d w' :
  read_process_memory address size w = (Ok d, w') ->
  exists chunks a',
    serve_reads (agent w) (chunk_plan address size) = Some (chunks, a')
    /\ d = concat chunks
    /\ w' = emits (map read_call (chunk_plan address size)) (set_agent a' w).
Proof.
  intros Hrun.
  assert (for_in (py_range 0 size MAX_DATA_CHUNK_SIZE)
            (read_chunk address size) [] w = (Ok d, w')) as Hloop.
  { unfold read_process_memory, try_except in Hrun.
    destruct (for_in _ _ _ w) as [[d0 | e] w0]; [exact Hrun |].
    unfold raise in Hrun. destruct (is_RPCException e); discriminate. }
  destruct (read_loop_inv _ _ _ _ _ _ _ Hloop) as (chunks & a' & Hs & ->).
  rewrite py_range_chunks in Hs.
  exists chunks, a'. split; [exact Hs | split; [reflexivity |]].
  pose proof (read_process_memory_served address size w chunks a' Hs)
    as Hrun'.
  rewrite Hrun in Hrun'. by injection Hrun'.
Qed.

(** With the agent answering in full, a read of [size >= 0] bytes returns
    [size] bytes. *)
Lemma read_process_memory_length address size (w : World) d w' :
  0 <= size ->
  answers_in_full (agent w) (chunk_plan address size) ->
  read_process_memory address size w = (Ok d, w') ->
  Z.of_nat (length d) = size.
Proof.
  intros Hsize (chunks & a' & Hs & Hfull) Hrun.
  destruct (read_process_memory_inv _ _ _ _ _ Hrun) as (chunks' & a'' & Hs' & -> & _).
  rewrite Hs in Hs'. injection Hs' as <- <-.
  rewrite (concat_length_sum _ _ Hfull). by apply chunk_plan_total.
Qed.

Lemma frida_range_to_mem_range_no_data r (w : World) :
  exists result,
    _frida_range_to_mem_range r false w = (result, w)
    /\ forall mr, result = Ok mr -> mr_data mr = None.
Proof.
  unfold _frida_range_to_mem_range, bind, lift, ret.
  destruct (py_getitem r "base") as [b |]; [| by eexists].
  destruct (py_int16 b) as [base |]; [| by eexists].
  destruct (py_getitem r "size") as [size |]; [| by eexists].
  destruct (py_getitem r "protection") as [protection |]; [| by eexists].
  eexists. split; [reflexivity |]. by intros mr [= <-].
Qed.

Lemma frida_range_to_mem_range_with_data r (w : World) mr w' :
  _frida_range_to_mem_range r true w = (Ok mr, w') ->
  range_read w r mr w'.
Proof.
  unfold _frida_range_to_mem_range, bind, lift, ret, read_process_memory_obj.
  intros Hrun.
  destruct (py_getitem r "base") as [b |] eqn:Hb; [| discriminate].
  destruct (py_int16 b) as [base |] eqn:Hbase; [| discriminate].
  destruct (py_getitem r "size") as [size_obj |] eqn:Hsize; [| discriminate].
  destruct (py_index size_obj) as [size |] eqn:Hidx;
    [| unfold raise in Hrun; discriminate].
  destruct (read_process_memory base size w) as [[d | e] w1] eqn:Hread;
    [| discriminate].
  destruct (py_getitem r "protection") as [protection |]; [| discriminate].
  injection Hrun as <- <-.
  exists b, size, d. simpl.
  split; [exact Hb |]. split; [exact Hbase |]. split; [exact Hsize |].
  split; [exact Hidx |]. split; [reflexivity |]. split; [exact Hread |].
  split.
  - intros Hpos Hfull.
    by apply (read_process_memory_length base size w d w1).
  - intros s -> Hhex. destruct (parse_hex_hex_string s Hhex) as [Hp H0].
    simpl in Hbase. rewrite Hp in Hbase. injection Hbase as <-. by split.
Qed.

Lemma map_m_no_data value (w : World) :
  exists result,
    map_m (fun r => _frida_range_to_mem_range r false) value w = (result, w)
    /\ forall mrs,
         result = Ok mrs -> Forall (fun mr => mr_data mr = None) mrs.
Proof.
  induction value as [| r value (rest & Hrest & Hnone)].
  - eexists. split; [reflexivity |]. intros mrs [= <-]. constructor.
  - destruct (frida_range_to_mem_range_no_data r w) as (first & Hfirst & Hd).
    simpl. unfold bind. rewrite Hfirst.
    destruct first as [mr | e]; [| by eexists].
    rewrite Hrest.
    destruct rest as [mrs' | e]; [| by eexists].
    eexists. split; [reflexivity |]. intros mrs [= <-].
    constructor; [by apply Hd | by apply Hnone].
Qed.

Lemma map_m_with_data value (w : World) mrs w' :
  map_m (fun r => _frida_range_to_mem_range r true) value w = (Ok mrs, w') ->
  ranges_read w value mrs w'.
Proof.
  revert w mrs.
  induction value as [| r value IH]; intros w mrs Hrun.
  - simpl in Hrun. unfold ret in Hrun. injection Hrun as <- <-. constructor.
  - simpl in Hrun. unfold bind at 1 in Hrun.
    destruct (_frida_range_to_mem_range r true w) as [[mr | e] w1] eqn:Hr;
      [| discriminate].
    unfold bind at 1 in Hrun.
    destruct (map_m _ value w1) as [[mrs' | e] w2] eqn:Hrest; [| discriminate].
    unfold ret in Hrun. injection Hrun as <- <-.
    econstructor; [by apply frida_range_to_mem_range_with_data | by apply IH].
Qed.

(** A record with a hexadecimal [base] and an integer [size], read with
    data: the range carries the bytes of the bulk read at [base]. *)
Lemma frida_range_to_mem_range_run r (w : World) s size protection
    chunks a' :
  py_getitem r "base" = Ok (PyStr s) ->
  is_hex_string s = true ->
  py_getitem r "size" = Ok (PyInt size) ->
  py_getitem r "protection" = Ok protection ->
  serve_reads (agent w) (chunk_plan (hex_value s) size) = Some (chunks, a') ->
  _frida_range_to_mem_range r true w
  = (Ok (mkMemoryRange (hex_value s) (PyInt size) protection
                       (Some (concat chunks))),
     emits (map read_call (chunk_plan (hex_value s) size)) (set_agent a' w)).
Proof.
  intros Hb Hhex Hsize Hprot Hs.
  destruct (parse_hex_hex_string s Hhex) as [Hp _].
  pose proof (read_process_memory_served _ _ w chunks a' Hs) as Hread.
  unfold _frida_range_to_mem_range, bind, lift, ret, read_process_memory_obj.
  rewrite Hb. unfold py_int16. rewrite Hp, Hsize. unfold py_index.
  cbv beta iota. by rewrite Hread, Hprot.
Qed.

Lemma map_m_served value (w : World) mrs evs a2 :
  serve_ranges (agent w) value = Some (mrs, evs, a2) ->
  map_m (fun r => _frida_range_to_mem_range r true) value w
  = (Ok mrs, emits evs (set_agent a2 w)).
Proof.
  revert w mrs evs a2.
  induction value as [| r value IH]; intros w mrs evs a2 Hs; simpl in Hs.
  - injection Hs as <- <- <-. simpl. unfold ret.
    by rewrite set_agent_same, emits_nil.
  - destruct (py_getitem r "base") as [[| | | s | |] |] eqn:Hb;
      try discriminate.
    destruct (py_getitem r "size") as [[| | n | | |] |] eqn:Hsize;
      try discriminate.
    destruct (py_getitem r "protection") as [protection |] eqn:Hp;
      [| discriminate].
    destruct (is_hex_string s) eqn:Hhex; [| discriminate].
    destruct (serve_reads (agent w) (chunk_plan (hex_value s) n))
      as [[chunks a1] |] eqn:Hreads; [| discriminate].
    destruct (serve_ranges a1 value) as [[[mrs' evs'] a2'] |] eqn:Hrest;
      [| discriminate].
    injection Hs as <- <- <-.
    simpl. unfold bind at 1.
    rewrite (frida_range_to_mem_range_run r w s n protection chunks a1
               Hb Hhex Hsize Hp Hreads).
    unfold bind at 1.
    rewrite (IH (emits _ (set_agent a1 w)) mrs' evs' a2' Hrest).
    unfold ret. f_equal.
    by rewrite set_agent_emits, set_agent_set_agent, emits_emits.
Qed.

Lemma frida_range_to_mem_range_plain r (w : World) s size protection :
  py_getitem r "base" = Ok (PyStr s) ->
  is_hex_string s = true ->
  py_getitem r "size" = Ok size ->
  py_getitem r "protection" = Ok protection ->
  _frida_range_to_mem_range r false w
  = (Ok (mkMemoryRange (hex_value s) size protection None), w).
Proof.
  intros Hb Hhex Hsize Hprot.
  destruct (parse_hex_hex_string s Hhex) as [Hp _].
  unfold _frida_range_to_mem_range, bind, lift, ret.
  rewrite Hb. unfold py_int16. by rewrite Hp, Hsize, Hprot.
Qed.

Lemma map_m_plain value (w : World) mrs :
  plain_ranges value = Some mrs ->
  map_m (fun r => _frida_range_to_mem_range r false) value w = (Ok mrs, w).
Proof.
  revert mrs.
  induction value as [| r value IH]; intros mrs Hs; simpl in Hs.
  - by injection Hs as <-.
  - destruct (py_getitem r "base") as [[| | | s | |] |] eqn:Hb;
      try discriminate.
    destruct (py_getitem r "size") as [size |] eqn:Hsize; [| discriminate].
    destruct (py_getitem r "protection") as [protection |] eqn:Hp;
      [| discriminate].
    destruct (is_hex_string s) eqn:Hhex; [| discriminate].
    destruct (plain_ranges value) as [mrs' |]; [| discriminate].
    injection Hs as <-.
    simpl. unfold bind.
    rewrite (frida_range_to_mem_range_plain r w s size protection
               Hb Hhex Hsize Hp).
    by rewrite (IH mrs' eq_refl).
Qed.

(** C6. A range lookup without data ([find_range_by_address] or
    [enumerate_module_ranges] with [include_data] false) makes its one
    lookup call and no memory read, and every range it returns has no
    data. With [include_data] true every returned range carries as data
    what the bulk read of [size] bytes at [base] returned, [base] being the
    record's [base] string read as hexadecimal; these are [size] bytes when
    the agent answers every chunk in full. Both lookups do return: for
    records with a hexadecimal [base], a [size] and a [protection] they
    give one range per record, in order, without data when none is asked
    for and, the agent serving the reads, with each range's own bytes
    when it is. *)
Theorem range_lookup_data address module_name (w : World) :
  (exists result,
     find_range_by_address address false w
     = (result,
        emits [Rpc (CallFindRangeByAddress address)]
              (set_agent (snd (rpc_find_range_by_address address (agent w)))
                         w))
     /\ forall mr, result = Ok (Some mr) -> mr_data mr = None)
  /\ (exists result,
        enumerate_module_ranges module_name false w
        = (result,
           emits [Rpc (CallEnumerateModuleRanges module_name)]
                 (set_agent
                    (snd (rpc_enumerate_module_ranges module_name (agent w)))
                    w))
        /\ forall mrs,
             result = Ok mrs -> Forall (fun mr => mr_data mr = None) mrs)
  /\ (forall mr w',
        find_range_by_address address true w = (Ok (Some mr), w') ->
        exists r a1,
          rpc_find_range_by_address address (agent w) = (inr r, a1)
          /\ range_read (emits [Rpc (CallFindRangeByAddress address)]
                               (set_agent a1 w)) r mr w')
  /\ (forall r a1 s size protection chunks a2,
        rpc_find_range_by_address address (agent w) = (inr r, a1) ->
        py_getitem r "base" = Ok (PyStr s) ->
        is_hex_string s = true ->
        py_getitem r "size" = Ok (PyInt size) ->
        py_getitem r "protection" = Ok protection ->
        serve_reads a1 (chunk_plan (hex_value s) size) = Some (chunks, a2) ->
        find_range_by_address address true w
        = (Ok (Some (mkMemoryRange (hex_value s) (PyInt size) protection
                                   (Some (concat chunks)))),
           emits (Rpc (CallFindRangeByAddress address)
                  :: map read_call (chunk_plan (hex_value s) size))
                 (set_agent a2 w)))
  /\ (forall mrs w',
        enumerate_module_ranges module_name true w = (Ok mrs, w') ->
        exists value a1,
          rpc_enumerate_module_ranges module_name (agent w) = (inr value, a1)
          /\ ranges_read (emits [Rpc (CallEnumerateModuleRanges module_name)]
                                (set_agent a1 w)) value mrs w')
  /\ (forall value a1 mrs evs a2,
        rpc_enumerate_module_ranges module_name (agent w) = (inr value, a1) ->
        serve_ranges a1 value = Some (mrs, evs, a2) ->
        enumerate_module_ranges module_name true w
        = (Ok mrs,
           emits (Rpc (CallEnumerateModuleRanges module_name) :: evs)
                 (set_agent a2 w)))
  /\ (forall value a1 mrs,
        rpc_enumerate_module_ranges module_name (agent w) = (inr value, a1) ->
        plain_ranges value = Some mrs ->
        enumerate_module_ranges module_name false w
        = (Ok mrs,
           emits [Rpc (CallEnumerateModuleRanges module_name)]
                 (set_agent a1 w)))
  /\ (forall r a1 mr,
        rpc_find_range_by_address address (agent w) = (inr r, a1) ->
        plain_ranges [r] = Some [mr] ->
        find_range_by_address address false w
        = (Ok (Some mr),
           emits [Rpc (CallFindRangeByAddress address)] (set_agent a1 w))).
Proof.
  split; [| split; [| split; [| split; [| split; [| split; [| split]]]]]].
  - unfold find_range_by_address, bind, remote.
    destruct (rpc_find_range_by_address address (agent w)) as [[e | r] a1];
      [by eexists |].
    simpl snd. rewrite <- emit_emits.
    assert (exists result,
              (mr <- _frida_range_to_mem_range r false ;; ret (Some mr))
                (emit (Rpc (CallFindRangeByAddress address)) (set_agent a1 w))
              = (result,
                 emit (Rpc (CallFindRangeByAddress address)) (set_agent a1 w))
              /\ forall mr, result = Ok (Some mr) -> mr_data mr = None)
      as Hconv.
    { destruct (frida_range_to_mem_range_no_data r
                  (emit (Rpc (CallFindRangeByAddress address))
                        (set_agent a1 w))) as (first & Hfirst & Hd).
      unfold bind. rewrite Hfirst.
      destruct first as [mr | e]; [| by eexists].
      eexists. split; [reflexivity |]. intros mr' [= <-]. by apply Hd. }
    destruct r; try exact Hconv. by eexists.
  - unfold enumerate_module_ranges, bind, remote.
    destruct (rpc_enumerate_module_ranges module_name (agent w))
      as [[e | value] a1]; [by eexists |].
    simpl snd. rewrite <- emit_emits. apply map_m_no_data.
  - intros mr w' Hrun.
    unfold find_range_by_address, bind at 1, remote in Hrun.
    destruct (rpc_find_range_by_address address (agent w)) as [[e | r] a1];
      [discriminate |].
    exists r, a1. split; [reflexivity |].
    rewrite <- emit_emits.
    apply frida_range_to_mem_range_with_data.
    destruct r; try discriminate Hrun;
      unfold bind, ret in Hrun;
      match type of Hrun with
      | context [_frida_range_to_mem_range ?r true ?w0] =>
          destruct (_frida_range_to_mem_range r true w0) as [[mr0 | e0] w0'];
            [by injection Hrun as <- <- | discriminate]
      end.
  - intros r a1 s size protection chunks a2 Hr Hb Hhex Hsize Hprot Hs.
    unfold find_range_by_address, bind at 1, remote. rewrite Hr.
    assert ((mr <- _frida_range_to_mem_range r true ;; ret (Some mr))
              (emit (Rpc (CallFindRangeByAddress address)) (set_agent a1 w))
            = (Ok (Some (mkMemoryRange (hex_value s) (PyInt size) protection
                                       (Some (concat chunks)))),
               emits (Rpc (CallFindRangeByAddress address)
                      :: map read_call (chunk_plan (hex_value s) size))
                     (set_agent a2 w))) as Hconv.
    { unfold bind.
      rewrite (frida_range_to_mem_range_run r
                 (emit (Rpc (CallFindRangeByAddress address)) (set_agent a1 w))
                 s size protection chunks a2 Hb Hhex Hsize Hprot Hs).
      unfold ret. f_equal.
      rewrite emit_emits, set_agent_emits, set_agent_set_agent.
      by rewrite emits_emits. }
    destruct r; try exact Hconv; discriminate Hb.
  - intros mrs w' Hrun.
    unfold enumerate_module_ranges, bind, remote in Hrun.
    destruct (rpc_enumerate_module_ranges module_name (agent w))
      as [[e | value] a1]; [discriminate |].
    exists value, a1. split; [reflexivity |].
    rewrite <- emit_emits. by apply map_m_with_data.
  - intros value a1 mrs evs a2 Hr Hs.
    unfold enumerate_module_ranges, bind, remote. rewrite Hr.
    rewrite (map_m_served value (emit _ (set_agent a1 w)) mrs evs a2 Hs).
    f_equal.
    rewrite emit_emits, set_agent_emits, set_agent_set_agent.
    by rewrite emits_emits.
  - intros value a1 mrs Hr Hs.
    unfold enumerate_module_ranges, bind, remote. rewrite Hr.
    by rewrite (map_m_plain value (emit _ (set_agent a1 w)) mrs Hs).
  - intros r a1 mr Hr Hs.
    simpl in Hs.
    destruct (py_getitem r "base") as [[| | | s | |] |] eqn:Hb;
      try discriminate.
    destruct (py_getitem r "size") as [size |] eqn:Hsize; [| discriminate].
    destruct (py_getitem r "protection") as [protection |] eqn:Hp;
      [| discriminate].
    destruct (is_hex_string s) eqn:Hhex; [| discriminate].
    injection Hs as <-.
    unfold find_range_by_address, bind at 1, remote. rewrite Hr.
    assert ((mr <- _frida_range_to_mem_range r false ;; ret (Some mr))
              (emit (Rpc (CallFindRangeByAddress address)) (set_agent a1 w))
            = (Ok (Some (mkMemoryRange (hex_value s) size protection None)),
               emits [Rpc (CallFindRangeByAddress address)] (set_agent a1 w)))
      as Hconv.
    { unfold bind.
      by rewrite (frida_range_to_mem_range_plain r _ s size protection
                    Hb Hhex Hsize Hp). }
    destruct r; try exact Hconv; discriminate Hb.
Qed.

End RangeTheorems.

Lemma range_lookup_data_witness :
  exists w1 w2 w3,
    find_range_by_address 4100 true FakeAgent.world0
    = (Ok (Some (mkMemoryRange 4096 (PyInt 3) (PyStr "r-x")
                               (Some [Byte.x00; Byte.x00; Byte.x00]))), w1)
    /\ trace w1 = [Rpc (CallFindRangeByAddress 4100);
                   Rpc (CallReadProcessMemory 4096 3)]
    /\ enumerate_module_ranges "main.exe" true FakeAgent.world0
       = (Ok [mkMemoryRange 4096 (PyInt 3) (PyStr "r-x")
                            (Some [Byte.x00; Byte.x00; Byte.x00]);
              mkMemoryRange 8192 (PyInt 2) (PyStr "r-x")
                            (Some [Byte.x01; Byte.x01])], w2)
    /\ trace w2 = [Rpc (CallEnumerateModuleRanges "main.exe");
                   Rpc (CallReadProcessMemory 4096 3);
                   Rpc (CallReadProcessMemory 8192 2)]
    /\ enumerate_module_ranges "main.exe" false FakeAgent.world0
       = (Ok [mkMemoryRange 4096 (PyInt 3) (PyStr "r-x") None;
              mkMemoryRange 8192 (PyInt 2) (PyStr "r-x") None], w3)
    /\ trace w3 = [Rpc (CallEnumerateModuleRanges "main.exe")].
Proof.
  destruct (range_lookup_data (Driver := list (Z * Z)) 4100 "main.exe"
              FakeAgent.world0)
    as (_ & _ & _ & Hfind & _ & Hdata & Hplain & _).
  eexists. eexists. eexists.
  split; [| split; [| split; [| split; [| split]]]].
  - apply (Hfind (FakeAgent.range_record "0x1000" 3) FakeAgent.init
             "0x1000" 3 (PyStr "r-x") [[Byte.x00; Byte.x00; Byte.x00]]
             (FakeAgent.tick FakeAgent.init));
      reflexivity.
  - reflexivity.
  - apply (Hdata (FakeAgent.ranges FakeAgent.init) FakeAgent.init);
      vm_compute; reflexivity.
  - vm_compute. reflexivity.
  - apply (Hplain (FakeAgent.ranges FakeAgent.init) FakeAgent.init);
      vm_compute; reflexivity.
  - vm_compute. reflexivity.
Defined.

Example fake_find_range_without_data :
  let '(r, w) := find_range_by_address 4100 false FakeAgent.world0 in
  r = Ok (Some (mkMemoryRange 4096 (PyInt 3) (PyStr "r-x") None))
  /\ trace w = [Rpc (CallFindRangeByAddress 4100)].
Proof. vm_compute. split; reflexivity. Qed.

Example fake_module_ranges_with_data :
  let '(r, w) := enumerate_module_ranges "main.exe" true FakeAgent.world0 in
  r = Ok [mkMemoryRange 4096 (PyInt 3) (PyStr "r-x")
                        (Some [Byte.x00; Byte.x00; Byte.x00]);
          mkMemoryRange 8192 (PyInt 2) (PyStr "r-x")
                        (Some [Byte.x01; Byte.x01])]
  /\ trace w = [Rpc (CallEnumerateModuleRanges "main.exe");
                Rpc (CallReadProcessMemory 4096 3);
                Rpc (CallReadProcessMemory 8192 2)].
Proof. vm_compute. split; reflexivity. Qed.

Example fake_module_ranges_without_data :
  let '(r, w) := enumerate_module_ranges "main.exe" false FakeAgent.world0 in
  r = Ok [mkMemoryRange 4096 (PyInt 3) (PyStr "r-x") None;
          mkMemoryRange 8192 (PyInt 2) (PyStr "r-x") None]
  /\ trace w = [Rpc (CallEnumerateModuleRanges "main.exe")].
Proof. vm_compute. split; reflexivity. Qed.

(** * Further properties of the bridge *)

(** ** Bulk reads: edges and failures *)

Section ReadsMore.

Context {Agent Driver : Type} `{FridaRpc Agent}.

Abbreviation World := (World Agent Driver).

(** A bulk read whose chunk [c] is the first to fault with [f]. *)
Lemma read_process_memory_faulted address size (w : World)
    pre c post chunks a1 f a2 :
  chunk_plan address size = pre ++ c :: post ->
  serve_reads (agent w) pre = Some (chunks, a1) ->
  rpc_read_process_memory (fst c) (snd c) a1 = (inl f, a2) ->
  read_process_memory address size w
  = (Raised (read_error f),
     emits (map read_call pre ++ [read_call c]) (set_agent a2 w)).
Proof.
  intros Hplan Hs Hf.
  rewrite <- py_range_chunks in Hplan.
  apply map_eq_app in Hplan as (opre & orest & Hr & Hpre & Hrest).
  apply map_eq_cons in Hrest as (o & opost & -> & Hc & Hpost).
  subst pre c. simpl in Hf.
  unfold read_process_memory, try_except.
  rewrite Hr, (read_loop_faulted _ _ _ _ _ [] w chunks a1 _ a2 Hs Hf).
  destruct f; simpl; unfold raise; by rewrite !map_app.
Qed.

Lemma read_loop_inv_raised address size offsets acc (w : World) e w' :
  for_in offsets (read_chunk address size) acc w = (Raised e, w') ->
  exists pre offset post chunks a1 f a2,
    offsets = pre ++ offset :: post
    /\ serve_reads (agent w) (map (chunk_of address size) pre)
       = Some (chunks, a1)
    /\ rpc_read_process_memory (address + offset)
         (Z.min MAX_DATA_CHUNK_SIZE (size - offset)) a1 = (inl f, a2)
    /\ e = Frida f
    /\ w' = emits (map read_call
                       (map (chunk_of address size) (pre ++ [offset])))
                  (set_agent a2 w).
Proof.
  revert acc w.
  induction offsets as [| o offsets IH]; intros acc w Hrun.
  - discriminate Hrun.
  - simpl in Hrun. unfold bind at 1 in Hrun.
    unfold read_chunk at 1, bind at 1, remote in Hrun.
    destruct (rpc_read_process_memory (address + o)
                (Z.min MAX_DATA_CHUNK_SIZE (size - o)) (agent w))
      as [[f | chunk] a0] eqn:Hr.
    + injection Hrun as <- <-.
      exists [], o, offsets, [], (agent w), f, a0.
      repeat split; try reflexivity. exact Hr.
    + unfold ret at 1 in Hrun.
      destruct (IH _ _ Hrun)
        as (pre & offset & post & chunks & a1 & f & a2
            & -> & Hs & Hf & -> & ->).
      exists (o :: pre), offset, post, (chunk :: chunks), a1, f, a2.
      split; [reflexivity |]. split.
      { simpl. rewrite Hr. simpl in Hs. by rewrite Hs. }
      split; [exact Hf |]. split; [reflexivity |].
      apply emits_after_call.
Qed.

(** X1. A bulk read of no bytes, or of a negative number of bytes, returns
    the empty buffer without any remote call. *)
Theorem read_process_memory_nothing_to_read address size (w : World) :
  size <= 0 ->
  read_process_memory address size w = (Ok [], w)
  /\ chunk_plan address size = [].
Proof.
  intros Hsize.
  assert (py_range 0 size MAX_DATA_CHUNK_SIZE = []) as Hr.
  { unfold py_range. destruct (Z.ltb_spec 0 size); [lia | reflexivity]. }
  split.
  - unfold read_process_memory, try_except. by rewrite Hr.
  - by rewrite <- py_range_chunks, Hr.
Qed.

(** X2. When the remote read of a chunk fails with an engine exception that
    is not an [RPCException], the bulk read raises that very exception,
    not [ReadProcessMemoryError], and stops there. *)
Theorem read_process_memory_engine_failure address size (w : World)
    pre c post chunks a1 msg a2 :
  chunk_plan address size = pre ++ c :: post ->
  serve_reads (agent w) pre = Some (chunks, a1) ->
  rpc_read_process_memory (fst c) (snd c) a1
    = (inl (InvalidOperationError msg), a2) ->
  read_process_memory address size w
  = (Raised (Frida (InvalidOperationError msg)),
     emits (map read_call pre ++ [read_call c]) (set_agent a2 w))
  /\ is_memory_error (Frida (InvalidOperationError msg)) = false.
Proof.
  intros Hplan Hs Hf. split; [| reflexivity].
  exact (read_process_memory_faulted _ _ _ _ _ _ _ _ _ _ Hplan Hs Hf).
Qed.

(** X3. A bulk read that returns has issued the whole chunk plan, one
    remote read per chunk and nothing else, every chunk was served, and
    the buffer is the answers end to end. *)
Theorem read_process_memory_returned address size (w : World) d w' :
  read_process_memory address size w = (Ok d, w') ->
  exists chunks a',
    serve_reads (agent w) (chunk_plan address size) = Some (chunks, a')
    /\ length chunks = Z.to_nat (ceil_div size MAX_DATA_CHUNK_SIZE)
    /\ d = concat chunks
    /\ trace w' = trace w ++ map read_call (chunk_plan address size)
    /\ agent w' = a'
    /\ driver w' = driver w
    /\ exported_functions_cache w' = exported_functions_cache w
    /\ heap w' = heap w.
Proof.
  intros Hrun.
  destruct (read_process_memory_inv _ _ _ _ _ Hrun)
    as (chunks & a' & Hs & -> & ->).
  exists chunks, a'. split; [exact Hs |]. split.
  - assert (forall plan a cs b,
              serve_reads a plan = Some (cs, b) -> length cs = length plan)
      as Hlen.
    { induction plan as [| [ad sz] plan IH]; intros a cs b Hsv; simpl in Hsv.
      - by injection Hsv as <- <-.
      - destruct (rpc_read_process_memory ad sz a) as [[f | ch] a0];
          [discriminate |].
        destruct (serve_reads a0 plan) as [[cs' b'] |] eqn:Hrest;
          [| discriminate].
        injection Hsv as <- <-. simpl. f_equal. by apply (IH a0 cs' b'). }
    rewrite (Hlen _ _ _ _ Hs). unfold chunk_plan.
    by rewrite length_map, length_seq.
  - repeat split; reflexivity.
Qed.

(** X4. When the agent answers every chunk with as many bytes as it was
    asked for, a bulk read of [size >= 0] bytes returns exactly [size]
    bytes. *)
Theorem read_process_memory_full_length address size (w : World) d w' :
  0 <= size ->
  answers_in_full (agent w) (chunk_plan address size) ->
  read_process_memory address size w = (Ok d, w') ->
  Z.of_nat (length d) = size
  /\ sum_Z (map snd (chunk_plan address size)) = size.
Proof.
  intros Hsize Hfull Hrun. split.
  - by apply (read_process_memory_length address size w d w').
  - by apply chunk_plan_total.
Qed.

(** X5. Whenever a bulk read raises, exactly one chunk faulted, the first
    that did: the chunks before it were served, nothing was read after it,
    and the exception is [ReadProcessMemoryError] caused by the fault when
    the fault is an [RPCException], and the fault itself otherwise. *)
Theorem read_process_memory_raised address size (w : World) e w' :
  read_process_memory address size w = (Raised e, w') ->
  exists pre c post chunks a1 f a2,
    chunk_plan address size = pre ++ c :: post
    /\ serve_reads (agent w) pre = Some (chunks, a1)
    /\ rpc_read_process_memory (fst c) (snd c) a1 = (inl f, a2)
    /\ e = read_error f
    /\ w' = emits (map read_call pre ++ [read_call c]) (set_agent a2 w).
Proof.
  intros Hrun.
  unfold read_process_memory, try_except in Hrun.
  destruct (for_in (py_range 0 size MAX_DATA_CHUNK_SIZE)
              (read_chunk address size) [] w) as [[d | e0] w0] eqn:Hloop;
    [discriminate |].
  destruct (read_loop_inv_raised _ _ _ _ _ _ _ Hloop)
    as (pre & offset & post & chunks & a1 & f & a2
        & Hoff & Hs & Hf & -> & ->).
  exists (map (chunk_of address size) pre), (chunk_of address size offset),
         (map (chunk_of address size) post), chunks, a1, f, a2.
  split; [by rewrite <- py_range_chunks, Hoff, map_app |].
  split; [exact Hs |]. split; [exact Hf |].
  simpl in Hrun. unfold raise in Hrun.
  destruct f; simpl in Hrun; injection Hrun as <- <-;
    (split; [reflexivity | by rewrite !map_app]).
Qed.

End ReadsMore.

Lemma read_process_memory_nothing_to_read_witness :
  read_process_memory 4096 0 FakeAgent.world0 = (Ok [], FakeAgent.world0).
Proof.
  apply (read_process_memory_nothing_to_read (Driver := list (Z * Z)) 4096 0
           FakeAgent.world0).
  lia.
Defined.

Lemma read_process_memory_engine_failure_witness :
  fst (read_process_memory 4096 3
         (fake_session FakePeer.destroyed_peer FakeEngine.init))
  = Raised (Frida FakePeer.gone).
Proof.
  refine (f_equal fst
            (proj1 (read_process_memory_engine_failure 4096 3
                      (fake_session FakePeer.destroyed_peer FakeEngine.init)
                      [] (4096, 3) [] [] FakePeer.destroyed_peer
                      "script has been destroyed" FakePeer.destroyed_peer
                      _ _ _)));
    reflexivity.
Defined.

Lemma read_process_memory_returned_witness :
  exists chunks a',
    serve_reads FakeAgent.init (chunk_plan 4096 3) = Some (chunks, a')
    /\ length chunks = 1%nat.
Proof.
  destruct (read_process_memory_returned (Driver := list (Z * Z)) 4096 3
              FakeAgent.world0 [Byte.x00; Byte.x00; Byte.x00]
              (emits [Rpc (CallReadProcessMemory 4096 3)]
                     (set_agent (FakeAgent.tick FakeAgent.init)
                                FakeAgent.world0)))
    as (chunks & a' & Hs & Hlen & _); [vm_compute; reflexivity |].
  exists chunks, a'. split; [exact Hs | exact Hlen].
Defined.

Lemma read_process_memory_full_length_witness :
  Z.of_nat (length [Byte.x00; Byte.x00; Byte.x00]) = 3.
Proof.
  refine (proj1 (read_process_memory_full_length (Driver := list (Z * Z))
                   4096 3 FakeAgent.world0 [Byte.x00; Byte.x00; Byte.x00]
                   (emits [Rpc (CallReadProcessMemory 4096 3)]
                          (set_agent (FakeAgent.tick FakeAgent.init)
                                     FakeAgent.world0)) _ _ _)).
  - lia.
  - exists [[Byte.x00; Byte.x00; Byte.x00]], (FakeAgent.tick FakeAgent.init).
    split; [vm_compute; reflexivity |]. vm_compute. repeat constructor.
  - vm_compute. reflexivity.
Defined.

Lemma read_process_memory_raised_witness :
  exists c f,
    rpc_read_process_memory (fst c) (snd c) FakeAgent.init
      = (inl f, FakeAgent.init)
    /\ ReadProcessMemoryError (Frida FakeAgent.fault) = read_error f.
Proof.
  destruct (read_process_memory_raised (Driver := list (Z * Z))
              2147483648 3 FakeAgent.world0
              (ReadProcessMemoryError (Frida FakeAgent.fault))
              (emits [Rpc (CallReadProcessMemory 2147483648 3)]
                     FakeAgent.world0))
    as (pre & c & post & chunks & a1 & f & a2 & Hplan & Hs & Hf & He & _);
    [vm_compute; reflexivity |].
  destruct pre as [| c0 pre].
  - simpl in Hs. injection Hs as <- <-.
    exists c, f. split; [| exact He].
    simpl in Hplan. injection Hplan as <- <-.
    simpl in Hf |- *. rewrite Hf. f_equal.
    vm_compute in Hf. by injection Hf as <- <-.
  - exfalso. vm_compute in Hplan. injection Hplan as <- Hrest.
    by destruct pre.
Defined.

(** ** Range lookups: absent ranges, broken records, failing reads *)

Section RangesMore.

Context {Agent Driver : Type} `{FridaRpc Agent}.

Abbreviation World := (World Agent Driver).

Lemma frida_range_to_mem_range_record r with_data (w : World) mr w' :
  _frida_range_to_mem_range r with_data w = (Ok mr, w') ->
  range_of_record r mr.
Proof.
  unfold _frida_range_to_mem_range, bind, lift, ret. intros Hrun.
  destruct (py_getitem r "base") as [b |] eqn:Hb; [| discriminate].
  destruct (py_int16 b) as [base |] eqn:Hbase; [| discriminate].
  destruct (py_getitem r "size") as [size |] eqn:Hsize; [| discriminate].
  destruct with_data.
  - destruct (read_process_memory_obj base size w) as [[d | e] w1];
      [| discriminate].
    destruct (py_getitem r "protection") as [p |] eqn:Hp; [| discriminate].
    injection Hrun as <- <-. by exists b.
  - destruct (py_getitem r "protection") as [p |] eqn:Hp; [| discriminate].
    injection Hrun as <- <-. by exists b.
Qed.

Lemma map_m_records include_data value (w : World) mrs w' :
  map_m (fun r => _frida_range_to_mem_range r include_data) value w
    = (Ok mrs, w') ->
  Forall2 range_of_record value mrs.
Proof.
  revert w mrs.
  induction value as [| r value IH]; intros w mrs Hrun.
  - simpl in Hrun. unfold ret in Hrun. injection Hrun as <- <-. constructor.
  - simpl in Hrun. unfold bind at 1 in Hrun.
    destruct (_frida_range_to_mem_range r include_data w)
      as [[mr | e] w1] eqn:Hr; [| discriminate].
    unfold bind at 1 in Hrun.
    destruct (map_m _ value w1) as [[mrs' | e] w2] eqn:Hrest; [| discriminate].
    unfold ret in Hrun. injection Hrun as <- <-.
    constructor; [by eapply frida_range_to_mem_range_record | by eapply IH].
Qed.

(** X6. When the agent knows no range for the address and answers [null],
    [find_range_by_address] returns [None] after that one lookup call,
    whether data was asked for or not. *)
Theorem find_range_by_address_none address include_data (w : World) a1 :
  rpc_find_range_by_address address (agent w) = (inr PyNone, a1) ->
  find_range_by_address address include_data w
  = (Ok None,
     emits [Rpc (CallFindRangeByAddress address)] (set_agent a1 w)).
Proof.
  intros Hr. unfold find_range_by_address, bind, remote, ret.
  by rewrite Hr.
Qed.

(** X7. When the agent's record has no usable [base] (absent, not a
    string, or ASCII text that is not a base-16 literal) or no [size], the
    lookup raises the exception of that access after the lookup call
    alone: no memory is read, even when data was asked for. *)
Theorem find_range_by_address_bad_record address include_data (w : World)
    r a1 e :
  rpc_find_range_by_address address (agent w) = (inr r, a1) ->
  r <> PyNone ->
  py_getitem r "base" = Raised e
  \/ (exists b,
        py_getitem r "base" = Ok b /\ ascii_literal b = true
        /\ py_int16 b = Raised e)
  \/ (exists b base,
        py_getitem r "base" = Ok b /\ py_int16 b = Ok base
        /\ py_getitem r "size" = Raised e) ->
  find_range_by_address address include_data w
  = (Raised e,
     emits [Rpc (CallFindRangeByAddress address)] (set_agent a1 w)).
Proof.
  intros Hr Hnone Hbad.
  unfold find_range_by_address, bind at 1, remote. rewrite Hr.
  assert ((mr <- _frida_range_to_mem_range r include_data ;; ret (Some mr))
            (emit (Rpc (CallFindRangeByAddress address)) (set_agent a1 w))
          = (Raised e,
             emits [Rpc (CallFindRangeByAddress address)] (set_agent a1 w)))
    as Hconv.
  { unfold _frida_range_to_mem_range, bind, lift.
    destruct Hbad as [Hb | [(b & Hb & _ & Hi) | (b & base & Hb & Hi & Hsz)]].
    - by rewrite Hb.
    - by rewrite Hb, Hi.
    - by rewrite Hb, Hi, Hsz. }
  destruct r; try exact Hconv. contradiction.
Qed.

(** X8. When data is asked for and the record has no [protection], the
    missing key is only noticed after the data has been read: the bulk
    read is made in full, and then the lookup raises. *)
Theorem find_range_by_address_missing_protection address (w : World)
    r a1 s size e chunks a2 :
  rpc_find_range_by_address address (agent w) = (inr r, a1) ->
  py_getitem r "base" = Ok (PyStr s) ->
  is_hex_string s = true ->
  py_getitem r "size" = Ok (PyInt size) ->
  py_getitem r "protection" = Raised e ->
  serve_reads a1 (chunk_plan (hex_value s) size) = Some (chunks, a2) ->
  find_range_by_address address true w
  = (Raised e,
     emits (Rpc (CallFindRangeByAddress address)
            :: map read_call (chunk_plan (hex_value s) size))
           (set_agent a2 w)).
Proof.
  intros Hr Hb Hhex Hsize Hp Hs.
  destruct (parse_hex_hex_string s Hhex) as [Hparse _].
  unfold find_range_by_address, bind at 1, remote. rewrite Hr.
  assert ((mr <- _frida_range_to_mem_range r true ;; ret (Some mr))
            (emit (Rpc (CallFindRangeByAddress address)) (set_agent a1 w))
          = (Raised e,
             emits (Rpc (CallFindRangeByAddress address)
                    :: map read_call (chunk_plan (hex_value s) size))
                   (set_agent a2 w))) as Hconv.
  { unfold _frida_range_to_mem_range, bind, lift, read_process_memory_obj.
    rewrite Hb. unfold py_int16. rewrite Hparse, Hsize. unfold py_index.
    cbv beta iota.
    rewrite (read_process_memory_served (hex_value s) size
               (emit (Rpc (CallFindRangeByAddress address)) (set_agent a1 w))
               chunks a2 Hs).
    rewrite Hp. f_equal.
    rewrite emit_emits, set_agent_emits, set_agent_set_agent.
    by rewrite emits_emits. }
  destruct r; try exact Hconv; discriminate Hb.
Qed.

(** X9. When data is asked for and a chunk of the range's data faults, the
    lookup fails as the bulk read does ([ReadProcessMemoryError] for an
    [RPCException]) and returns no range, not one without data. *)
Theorem find_range_by_address_read_fault address (w : World)
    r a1 s size pre c post chunks a2 f a3 :
  rpc_find_range_by_address address (agent w) = (inr r, a1) ->
  py_getitem r "base" = Ok (PyStr s) ->
  is_hex_string s = true ->
  py_getitem r "size" = Ok (PyInt size) ->
  chunk_plan (hex_value s) size = pre ++ c :: post ->
  serve_reads a1 pre = Some (chunks, a2) ->
  rpc_read_process_memory (fst c) (snd c) a2 = (inl f, a3) ->
  find_range_by_address address true w
  = (Raised (read_error f),
     emits (Rpc (CallFindRangeByAddress address)
            :: map read_call pre ++ [read_call c])
           (set_agent a3 w)).
Proof.
  intros Hr Hb Hhex Hsize Hplan Hs Hf.
  destruct (parse_hex_hex_string s Hhex) as [Hparse _].
  unfold find_range_by_address, bind at 1, remote. rewrite Hr.
  assert ((mr <- _frida_range_to_mem_range r true ;; ret (Some mr))
            (emit (Rpc (CallFindRangeByAddress address)) (set_agent a1 w))
          = (Raised (read_error f),
             emits (Rpc (CallFindRangeByAddress address)
                    :: map read_call pre ++ [read_call c])
                   (set_agent a3 w))) as Hconv.
  { unfold _frida_range_to_mem_range, bind, lift, read_process_memory_obj.
    rewrite Hb. unfold py_int16. rewrite Hparse, Hsize. unfold py_index.
    cbv beta iota.
    rewrite (read_process_memory_faulted (hex_value s) size
               (emit (Rpc (CallFindRangeByAddress address)) (set_agent a1 w))
               pre c post chunks a2 f a3 Hplan Hs Hf).
    f_equal.
    rewrite emit_emits, set_agent_emits, set_agent_set_agent.
    by rewrite emits_emits. }
  destruct r; try exact Hconv; discriminate Hb.
Qed.

(** X10. [enumerate_module_ranges] returns all or nothing: when it returns,
    there is one range per record of the agent's list, in the list's
    order, each with the record's [base] read as hexadecimal and the
    record's [size] and [protection]. *)
Theorem enumerate_module_ranges_one_per_record module_name include_data
    (w : World) mrs w' :
  enumerate_module_ranges module_name include_data w = (Ok mrs, w') ->
  exists value a1,
    rpc_enumerate_module_ranges module_name (agent w) = (inr value, a1)
    /\ Forall2 range_of_record value mrs
    /\ length mrs = length value.
Proof.
  intros Hrun.
  unfold enumerate_module_ranges, bind, remote in Hrun.
  destruct (rpc_enumerate_module_ranges module_name (agent w))
    as [[f | value] a1]; [discriminate |].
  exists value, a1. split; [reflexivity |].
  pose proof (map_m_records _ _ _ _ _ Hrun) as Hall.
  split; [exact Hall |]. symmetry. by eapply Forall2_length.
Qed.

(** X11. With data asked for and well-formed records,
    [enumerate_module_ranges] reads the ranges one after the other, in the
    order of the agent's list: after the enumeration call come the chunk
    reads of the first range, then those of the second, and so on, and
    each range carries its own bytes. *)
Theorem enumerate_module_ranges_served module_name (w : World)
    value a1 mrs evs a2 :
  rpc_enumerate_module_ranges module_name (agent w) = (inr value, a1) ->
  serve_ranges a1 value = Some (mrs, evs, a2) ->
  enumerate_module_ranges module_name true w
  = (Ok mrs,
     emits (Rpc (CallEnumerateModuleRanges module_name) :: evs)
           (set_agent a2 w)).
Proof.
  intros Hr Hs.
  unfold enumerate_module_ranges, bind, remote. rewrite Hr.
  rewrite (map_m_served value (emit _ (set_agent a1 w)) mrs evs a2 Hs).
  f_equal.
  rewrite emit_emits, set_agent_emits, set_agent_set_agent.
  by rewrite emits_emits.
Qed.

End RangesMore.

Lemma find_range_by_address_none_witness :
  find_range_by_address 4100 true (fake_world_with [])
  = (Ok None, emits [Rpc (CallFindRangeByAddress 4100)] (fake_world_with [])).
Proof.
  apply (find_range_by_address_none (Driver := list (Z * Z)) 4100 true
           (fake_world_with []) (agent (fake_world_with []))).
  reflexivity.
Defined.

Lemma find_range_by_address_bad_record_witness :
  find_range_by_address 4100 true (fake_world_with [record_without_base])
  = (Raised (KeyError "base"),
     emits [Rpc (CallFindRangeByAddress 4100)]
           (fake_world_with [record_without_base]))
  /\ find_range_by_address 4100 true
       (fake_world_with [FakeAgent.range_record "main" 3])
     = (Raised ValueError,
        emits [Rpc (CallFindRangeByAddress 4100)]
              (fake_world_with [FakeAgent.range_record "main" 3])).
Proof.
  split.
  - apply (find_range_by_address_bad_record (Driver := list (Z * Z)) 4100
             true (fake_world_with [record_without_base])
             record_without_base
             (agent (fake_world_with [record_without_base]))
             (KeyError "base")).
    + reflexivity.
    + discriminate.
    + left. reflexivity.
  - apply (find_range_by_address_bad_record (Driver := list (Z * Z)) 4100
             true (fake_world_with [FakeAgent.range_record "main" 3])
             (FakeAgent.range_record "main" 3)
             (agent (fake_world_with [FakeAgent.range_record "main" 3]))
             ValueError).
    + reflexivity.
    + discriminate.
    + right. left. exists (PyStr "main"). repeat split.
Defined.

Lemma find_range_by_address_missing_protection_witness :
  exists w',
    find_range_by_address 4100 true
      (fake_world_with [record_without_protection])
    = (Raised (KeyError "protection"), w')
    /\ trace w' = [Rpc (CallFindRangeByAddress 4100);
                   Rpc (CallReadProcessMemory 4096 3)].
Proof.
  eexists. split.
  - apply (find_range_by_address_missing_protection (Driver := list (Z * Z))
             4100 (fake_world_with [record_without_protection])
             record_without_protection
             (agent (fake_world_with [record_without_protection]))
             "0x1000" 3 (KeyError "protection")
             [[Byte.x00; Byte.x00; Byte.x00]]
             (FakeAgent.tick
                (agent (fake_world_with [record_without_protection]))));
      reflexivity.
  - reflexivity.
Defined.

Lemma find_range_by_address_read_fault_witness :
  exists w',
    find_range_by_address 4100 true (fake_world_with [record_unreadable])
    = (Raised (ReadProcessMemoryError (Frida FakeAgent.fault)), w')
    /\ trace w' = [Rpc (CallFindRangeByAddress 4100);
                   Rpc (CallReadProcessMemory 2147483648 3)].
Proof.
  eexists. split.
  - apply (find_range_by_address_read_fault (Driver := list (Z * Z))
             4100 (fake_world_with [record_unreadable]) record_unreadable
             (agent (fake_world_with [record_unreadable]))
             "0x80000000" 3 [] (2147483648, 3) [] []
             (agent (fake_world_with [record_unreadable]))
             FakeAgent.fault
             (agent (fake_world_with [record_unreadable])));
      reflexivity.
  - reflexivity.
Defined.

Lemma enumerate_module_ranges_one_per_record_witness :
  exists value a1,
    rpc_enumerate_module_ranges "main.exe" FakeAgent.init = (inr value, a1)
    /\ length value = 2%nat.
Proof.
  destruct (enumerate_module_ranges_one_per_record (Driver := list (Z * Z))
              "main.exe" false FakeAgent.world0
              [mkMemoryRange 4096 (PyInt 3) (PyStr "r-x") None;
               mkMemoryRange 8192 (PyInt 2) (PyStr "r-x") None]
              (emits [Rpc (CallEnumerateModuleRanges "main.exe")]
                     FakeAgent.world0))
    as (value & a1 & Hr & _ & Hlen); [vm_compute; reflexivity |].
  exists value, a1. split; [exact Hr | by rewrite <- Hlen].
Defined.

Lemma enumerate_module_ranges_served_witness :
  exists w',
    enumerate_module_ranges "main.exe" true FakeAgent.world0
    = (Ok [mkMemoryRange 4096 (PyInt 3) (PyStr "r-x")
                         (Some [Byte.x00; Byte.x00; Byte.x00]);
           mkMemoryRange 8192 (PyInt 2) (PyStr "r-x")
                         (Some [Byte.x01; Byte.x01])], w')
    /\ trace w' = [Rpc (CallEnumerateModuleRanges "main.exe");
                   Rpc (CallReadProcessMemory 4096 3);
                   Rpc (CallReadProcessMemory 8192 2)].
Proof.
  eexists. split.
  - apply (enumerate_module_ranges_served (Driver := list (Z * Z))
             "main.exe" FakeAgent.world0 (FakeAgent.ranges FakeAgent.init)
             FakeAgent.init);
      vm_compute; reflexivity.
  - vm_compute. reflexivity.
Defined.

(** ** The export cache: failed refreshes, old snapshots, distinct keys *)

Lemma exports_dict_of_bad_record pre bad post ks e (m0 : gmap Z pyval) :
  export_keys pre = Some ks ->
  export_key bad = Raised e ->
  exports_dict_of (pre ++ bad :: post) m0 = Raised e.
Proof.
  revert ks m0.
  induction pre as [| r pre IH]; intros ks m0 Hks Hbad.
  - simpl. unfold export_key in Hbad.
    destruct (py_getitem bad "address") as [a |];
      [by rewrite Hbad | by injection Hbad as ->].
  - simpl in Hks. unfold export_key in Hks. simpl.
    destruct (py_getitem r "address") as [a |]; [| discriminate].
    destruct (py_int16 a) as [k |]; [| discriminate].
    destruct (export_keys pre) as [ks' |]; [| discriminate].
    by apply (IH ks').
Qed.

Lemma exports_dict_of_distinct value keys (m0 : gmap Z pyval) m :
  export_keys value = Some keys ->
  NoDup keys ->
  exports_dict_of value m0 = Ok m ->
  forall (i : nat) k e,
    keys !! i = Some k -> value !! i = Some e -> m !! k = Some e.
Proof.
  intros Hk Hnd Hm i k e Hi He.
  destruct (exports_dict_of_keys value keys m0 Hk) as (m' & Hm' & _ & _ & Hlast).
  rewrite Hm in Hm'. injection Hm' as <-.
  apply (Hlast i k e Hi He).
  intros j Hj Hkj.
  pose proof (NoDup_lookup _ _ _ _ Hnd Hi Hkj). lia.
Qed.

Section CacheMore.

Context {Agent Driver : Type} `{FridaRpc Agent}.

Abbreviation World := (World Agent Driver).

(** The refreshing path of [enumerate_exported_functions], whatever comes
    of it. *)
Lemma enumerate_exported_functions_refresh update_cache (w : World) :
  exported_functions_cache w = None \/ update_cache = true ->
  enumerate_exported_functions update_cache w
  = match rpc_enumerate_exported_functions (agent w) with
    | (inl f, a') =>
        (Raised (Frida f),
         emits [Rpc CallEnumerateExportedFunctions] (set_agent a' w))
    | (inr value, a') =>
        match exports_dict_of value ∅ with
        | Ok m => (Ok (length (heap w)), enumerated a' m w)
        | Raised e =>
            (Raised e,
             emits [Rpc CallEnumerateExportedFunctions] (set_agent a' w))
        end
    end.
Proof.
  intros Hc.
  unfold enumerate_exported_functions, bind at 1, get_exported_functions_cache.
  assert (forall c : World -> res nat * World,
            match exported_functions_cache w with
            | None => c
            | Some cached => if update_cache then c else ret cached
            end = c) as ->.
  { intros c. destruct Hc as [-> | ->]; [reflexivity |].
    by destruct (exported_functions_cache w). }
  unfold bind, remote, lift, alloc, set_exported_functions_cache, ret.
  destruct (rpc_enumerate_exported_functions (agent w)) as [[f | value] a'];
    [reflexivity |].
  destruct (exports_dict_of value ∅); reflexivity.
Qed.

(** X12. A fault of the enumeration call, an [RPCException] included,
    reaches the caller as it is, not as one of the memory-error kinds, and
    the cache and the mappings handed out before stay as they were. *)
Theorem enumerate_exported_functions_call_fault update_cache (w : World)
    f a' :
  exported_functions_cache w = None \/ update_cache = true ->
  rpc_enumerate_exported_functions (agent w) = (inl f, a') ->
  exists w',
    enumerate_exported_functions update_cache w = (Raised (Frida f), w')
    /\ is_memory_error (Frida f) = false
    /\ trace w' = trace w ++ [Rpc CallEnumerateExportedFunctions]
    /\ exported_functions_cache w' = exported_functions_cache w
    /\ heap w' = heap w.
Proof.
  intros Hc Hr.
  rewrite (enumerate_exported_functions_refresh update_cache w Hc), Hr.
  eexists. split; [reflexivity |]. repeat split.
Qed.

(** X13. When a record of the enumeration has no usable [address] (absent,
    not a string, or ASCII text that is not a base-16 literal), the
    refresh raises the exception of the first such record, after the
    remote call has been made; the cache is not replaced, so the snapshot
    cached before stays the one returned later. *)
Theorem enumerate_exported_functions_bad_record update_cache (w : World)
    pre bad post ks e a' :
  exported_functions_cache w = None \/ update_cache = true ->
  rpc_enumerate_exported_functions (agent w) = (inr (pre ++ bad :: post), a') ->
  export_keys pre = Some ks ->
  (forall a, py_getitem bad "address" = Ok a -> ascii_literal a = true) ->
  export_key bad = Raised e ->
  exists w',
    enumerate_exported_functions update_cache w = (Raised e, w')
    /\ trace w' = trace w ++ [Rpc CallEnumerateExportedFunctions]
    /\ exported_functions_cache w' = exported_functions_cache w
    /\ heap w' = heap w
    /\ (forall cached,
          exported_functions_cache w = Some cached ->
          enumerate_exported_functions false w' = (Ok cached, w')).
Proof.
  intros Hc Hr Hks _ Hbad.
  rewrite (enumerate_exported_functions_refresh update_cache w Hc), Hr.
  rewrite (exports_dict_of_bad_record pre bad post ks e ∅ Hks Hbad).
  eexists. split; [reflexivity |].
  split; [reflexivity |]. split; [reflexivity |]. split; [reflexivity |].
  intros cached Hcache.
  apply enumerate_exported_functions_cached. simpl. exact Hcache.
Qed.

(** X14. A call that returns never changes a mapping handed out before:
    every mapping object on the heap is still there, unchanged, and a
    refresh returns a new object, not one of them. *)
Theorem enumerate_exported_functions_keeps_snapshots update_cache
    (w : World) exports w' :
  enumerate_exported_functions update_cache w = (Ok exports, w') ->
  (forall (l : nat) m0, heap w !! l = Some m0 -> heap w' !! l = Some m0)
  /\ (exported_functions_cache w = None \/ update_cache = true ->
      heap w !! exports = None /\ is_Some (heap w' !! exports)).
Proof.
  intros Hrun. split.
  - destruct (exported_functions_cache w) as [cached |] eqn:Hcache.
    + destruct update_cache.
      * rewrite (enumerate_exported_functions_refresh true w (or_intror eq_refl))
          in Hrun.
        destruct (rpc_enumerate_exported_functions (agent w))
          as [[f | value] a']; [discriminate |].
        destruct (exports_dict_of value ∅) as [m |]; [| discriminate].
        injection Hrun as <- <-. intros l m0 Hl. simpl.
        by apply lookup_app_l_Some.
      * rewrite (enumerate_exported_functions_cached cached w Hcache) in Hrun.
        by injection Hrun as <- <-.
    + rewrite (enumerate_exported_functions_refresh update_cache w
                 (or_introl Hcache)) in Hrun.
      destruct (rpc_enumerate_exported_functions (agent w))
        as [[f | value] a']; [discriminate |].
      destruct (exports_dict_of value ∅) as [m |]; [| discriminate].
      injection Hrun as <- <-. intros l m0 Hl. simpl.
      by apply lookup_app_l_Some.
  - intros Hc.
    rewrite (enumerate_exported_functions_refresh update_cache w Hc) in Hrun.
    destruct (rpc_enumerate_exported_functions (agent w))
      as [[f | value] a']; [discriminate |].
    destruct (exports_dict_of value ∅) as [m |]; [| discriminate].
    injection Hrun as <- <-. split.
    + by apply lookup_ge_None.
    + exists m. simpl. by rewrite lookup_app_r, Nat.sub_diag.
Qed.

(** X15. When the records of the enumeration have pairwise different
    addresses, the mapping has one entry per record and every record is
    found under its own address. *)
Theorem exported_functions_distinct update_cache (w : World)
    value a' keys :
  exported_functions_cache w = None \/ update_cache = true ->
  rpc_enumerate_exported_functions (agent w) = (inr value, a') ->
  export_keys value = Some keys ->
  NoDup keys ->
  exists m,
    enumerate_exported_functions update_cache w
      = (Ok (length (heap w)), enumerated a' m w)
    /\ size m = length value
    /\ (forall (i : nat) e,
          value !! i = Some e ->
          exists k, keys !! i = Some k /\ export_key e = Ok k
                    /\ m !! k = Some e).
Proof.
  intros Hc Hr Hk Hnd.
  destruct (exports_dict_of_keys value keys ∅ Hk)
    as (m & Hm & Hdom & _ & _).
  exists m. split; [by eapply enumerate_exported_functions_fresh |].
  split.
  - rewrite <- size_dom, Hdom, dom_empty_L, union_empty_l_L.
    rewrite size_list_to_set by exact Hnd.
    by apply export_keys_length.
  - intros i e He.
    assert (exists k, keys !! i = Some k /\ export_key e = Ok k)
      as (k & Hi & Hek).
    { clear Hm Hdom Hnd Hr Hc. revert keys Hk i He.
      induction value as [| r value IH]; intros keys Hk i He;
        [by rewrite lookup_nil in He |].
      simpl in Hk.
      destruct (export_key r) as [k0 |] eqn:Hk0; [| discriminate].
      destruct (export_keys value) as [ks |]; [| discriminate].
      injection Hk as <-.
      destruct i as [| i]; simpl in He |- *.
      - injection He as <-. by exists k0.
      - by apply IH. }
    exists k. split; [exact Hi |]. split; [exact Hek |].
    by apply (exports_dict_of_distinct value keys ∅ m Hk Hnd Hm i k e).
Qed.

(** X16. An agent that reports no exports is asked once: the empty mapping
    is cached like any other, and later calls without [update_cache]
    return it without a remote call. *)
Theorem enumerate_exported_functions_no_exports update_cache (w : World) a' :
  exported_functions_cache w = None \/ update_cache = true ->
  rpc_enumerate_exported_functions (agent w) = (inr [], a') ->
  enumerate_exported_functions update_cache w
    = (Ok (length (heap w)), enumerated a' ∅ w)
  /\ enumerate_exported_functions false (enumerated a' ∅ w)
     = (Ok (length (heap w)), enumerated a' ∅ w).
Proof.
  intros Hc Hr. split.
  - by apply (enumerate_exported_functions_fresh update_cache w [] a' ∅).
  - by apply enumerate_exported_functions_cached.
Qed.

End CacheMore.

Lemma enumerate_exported_functions_call_fault_witness :
  exists w',
    enumerate_exported_functions false
      (fake_session FakePeer.destroyed_peer FakeEngine.init)
    = (Raised (Frida FakePeer.gone), w')
    /\ exported_functions_cache w' = None.
Proof.
  destruct (enumerate_exported_functions_call_fault false
              (fake_session FakePeer.destroyed_peer FakeEngine.init)
              FakePeer.gone FakePeer.destroyed_peer)
    as (w' & Hrun & _ & _ & Hcache & _);
    [left; reflexivity | reflexivity |].
  exists w'. split; [exact Hrun | exact Hcache].
Defined.

Lemma enumerate_exported_functions_bad_record_witness :
  exists w',
    enumerate_exported_functions false
      (fake_world_exporting
         [[FakeAgent.export_record "0x1000" "f";
           FakeAgent.export_record "entry" "g"]])
    = (Raised ValueError, w')
    /\ exported_functions_cache w' = None.
Proof.
  destruct (enumerate_exported_functions_bad_record (Driver := list (Z * Z))
              false
              (fake_world_exporting
                 [[FakeAgent.export_record "0x1000" "f";
                   FakeAgent.export_record "entry" "g"]])
              [FakeAgent.export_record "0x1000" "f"]
              (FakeAgent.export_record "entry" "g")
              [] [4096] ValueError
              (FakeAgent.mkState 0 2147483648 [] []))
    as (w' & Hrun & _ & Hcache & _);
    [left; reflexivity | reflexivity | reflexivity
     | by intros a [= <-] | reflexivity |].
  exists w'. split; [exact Hrun | exact Hcache].
Defined.

Lemma enumerate_exported_functions_keeps_snapshots_witness :
  heap FakeAgent.world0 !! O = None.
Proof.
  destruct (exports_dict_of_keys fake_exports_1 [4096; 8192; 4096] ∅ eq_refl)
    as (m & Hm & _).
  assert (enumerate_exported_functions false FakeAgent.world0
          = (Ok O, enumerated fake_agent_after_enumeration m FakeAgent.world0))
    as Hrun.
  { apply (enumerate_exported_functions_fresh false FakeAgent.world0
             fake_exports_1 fake_agent_after_enumeration m);
      [left; reflexivity | reflexivity | exact Hm]. }
  destruct (enumerate_exported_functions_keeps_snapshots
              (Driver := list (Z * Z)) false FakeAgent.world0 O _ Hrun)
    as (_ & Hfresh).
  exact (proj1 (Hfresh (or_introl eq_refl))).
Defined.

Lemma exported_functions_distinct_witness :
  exists m : gmap Z pyval,
    fst (enumerate_exported_functions false
           (fake_world_exporting
              [[FakeAgent.export_record "0x1000" "f";
                FakeAgent.export_record "0x2000" "g"]]))
    = Ok O
    /\ size m = 2%nat
    /\ m !! 8192 = Some (FakeAgent.export_record "0x2000" "g").
Proof.
  destruct (exported_functions_distinct (Driver := list (Z * Z)) false
              (fake_world_exporting
                 [[FakeAgent.export_record "0x1000" "f";
                   FakeAgent.export_record "0x2000" "g"]])
              [FakeAgent.export_record "0x1000" "f";
               FakeAgent.export_record "0x2000" "g"]
              (FakeAgent.mkState 0 2147483648 [] []) [4096; 8192])
    as (m & Hrun & Hsize & Hfind);
    [left; reflexivity | reflexivity | reflexivity
     | repeat constructor; set_solver |].
  exists m. split; [by rewrite Hrun |]. split; [exact Hsize |].
  destruct (Hfind 1%nat (FakeAgent.export_record "0x2000" "g") eq_refl)
    as (k & Hk & _ & Hm).
  injection Hk as <-. exact Hm.
Defined.

Lemma enumerate_exported_functions_no_exports_witness :
  exists w',
    enumerate_exported_functions false (fake_world_exporting []) = (Ok O, w')
    /\ enumerate_exported_functions false w' = (Ok O, w').
Proof.
  destruct (enumerate_exported_functions_no_exports (Driver := list (Z * Z))
              false (fake_world_exporting [])
              (agent (fake_world_exporting [])))
    as (Hfirst & Hagain); [left; reflexivity | reflexivity |].
  eexists. split; [exact Hfirst | exact Hagain].
Defined.

(** ** The event handler: malformed messages, failing callbacks, and what
    the handler leaves alone *)

Section CallbackMore.

Context {Agent Driver : Type}.

Abbreviation World := (World Agent Driver).

(** X17. A message without a [type], a [send] message without a [payload],
    and a [send] message whose payload is not a mapping make the handler
    raise the exception of that access ([KeyError], [AttributeError]), not
    [NotImplementedError]; nothing is logged and the callback is not
    invoked. *)
Theorem frida_callback_malformed_envelope
    (notify : Z -> Z -> Driver -> res unit * Driver)
    message data (w : World) e :
  py_getitem message "type" = Raised e
  \/ (py_getitem message "type" = Ok (PyStr "send")
      /\ py_getitem message "payload" = Raised e)
  \/ (py_getitem message "type" = Ok (PyStr "send")
      /\ exists payload,
           py_getitem message "payload" = Ok payload
           /\ py_get payload "event" (PyStr EmptyString) = Raised e) ->
  _frida_callback notify message data w = (Raised e, w).
Proof.
  intros [Htype | [[Htype Hp] | [Htype (payload & Hp & He)]]];
    unfold _frida_callback, bind, lift, ret, raise; rewrite Htype.
  - reflexivity.
  - change (py_eq_str (PyStr "send") "error") with false.
    change (py_eq_str (PyStr "send") "send") with true.
    cbv beta iota. by rewrite Hp.
  - change (py_eq_str (PyStr "send") "error") with false.
    change (py_eq_str (PyStr "send") "send") with true.
    cbv beta iota. by rewrite Hp, He.
Qed.

(** X18. On an [oep_reached] event whose [BASE] or [OEP] is absent, is
    not a string, or is ASCII text that is not a base-16 literal, the
    handler raises the exception of that access or conversion; both
    addresses are converted before the callback is called, so the
    callback is not invoked with half an event. *)
Theorem frida_callback_bad_oep_payload
    (notify : Z -> Z -> Driver -> res unit * Driver)
    message data (w : World) payload e :
  py_getitem message "type" = Ok (PyStr "send") ->
  py_getitem message "payload" = Ok payload ->
  py_get payload "event" (PyStr EmptyString) = Ok (PyStr "oep_reached") ->
  py_getitem payload "BASE" = Raised e
  \/ (exists b,
        py_getitem payload "BASE" = Ok b /\ ascii_literal b = true
        /\ py_int16 b = Raised e)
  \/ (exists b base,
        py_getitem payload "BASE" = Ok b /\ py_int16 b = Ok base
        /\ (py_getitem payload "OEP" = Raised e
            \/ exists o, py_getitem payload "OEP" = Ok o
                         /\ ascii_literal o = true
                         /\ py_int16 o = Raised e)) ->
  _frida_callback notify message data w = (Raised e, w).
Proof.
  intros Htype Hp Hev Hbad.
  unfold _frida_callback, bind, lift, ret, raise.
  rewrite Htype, Hp, Hev.
  change (py_eq_str (PyStr "send") "error") with false.
  change (py_eq_str (PyStr "send") "send") with true.
  change (py_eq_str (PyStr "oep_reached") "oep_reached") with true.
  cbv beta iota.
  destruct Hbad as [Hb | [(b & Hb & _ & Hi) | (b & base & Hb & Hi & Hoep)]].
  - by rewrite Hb.
  - by rewrite Hb, Hi.
  - rewrite Hb, Hi.
    destruct Hoep as [Ho | (o & Ho & _ & Hoi)].
    + by rewrite Ho.
    + by rewrite Ho, Hoi.
Qed.

(** X19. An exception raised by the callback is not caught: the handler
    raises it, after the one invocation, with whatever the callback did to
    the driver's state. *)
Theorem frida_callback_callback_raises
    (notify : Z -> Z -> Driver -> res unit * Driver)
    message data (w : World) payload base_str oep_str e d' :
  py_getitem message "type" = Ok (PyStr "send") ->
  py_getitem message "payload" = Ok payload ->
  py_getitem payload "event" = Ok (PyStr "oep_reached") ->
  py_getitem payload "BASE" = Ok (PyStr base_str) ->
  py_getitem payload "OEP" = Ok (PyStr oep_str) ->
  is_hex_string base_str = true ->
  is_hex_string oep_str = true ->
  notify (hex_value base_str) (hex_value oep_str) (driver w)
    = (Raised e, d') ->
  _frida_callback notify message data w
  = (Raised e,
     set_driver d'
       (emits [Notify (hex_value base_str) (hex_value oep_str)] w)).
Proof.
  intros Htype Hpayload Hevent Hbase Hoep Hb Ho Hn.
  destruct (parse_hex_hex_string _ Hb) as [Hpb _].
  destruct (parse_hex_hex_string _ Ho) as [Hpo _].
  unfold _frida_callback, bind, lift, ret, call_notify.
  rewrite Htype, Hpayload, (py_getitem_get _ _ _ _ Hevent), Hbase, Hoep.
  unfold py_int16. rewrite Hpb, Hpo.
  change (py_eq_str (PyStr "send") "error") with false.
  change (py_eq_str (PyStr "send") "send") with true.
  change (py_eq_str (PyStr "oep_reached") "oep_reached") with true.
  cbv beta iota. unfold emit. cbn [driver]. rewrite Hn. reflexivity.
Qed.

(** X20. Whatever the message and the callback, the handler makes no
    remote call and touches neither the agent nor the export cache nor
    the mappings; it invokes the callback at most once, and when it does
    not, the driver's state is as before. *)
Theorem frida_callback_frame
    (notify : Z -> Z -> Driver -> res unit * Driver)
    message data (w : World) :
  let w' := snd (_frida_callback notify message data w) in
  agent w' = agent w
  /\ exported_functions_cache w' = exported_functions_cache w
  /\ heap w' = heap w
  /\ exists evs,
       trace w' = trace w ++ evs
       /\ forallb (fun ev => negb (is_rpc_event ev)) evs = true
       /\ (length (filter (fun ev => is_notify_event ev = true) evs) <= 1)%nat
       /\ (filter (fun ev => is_notify_event ev = true) evs = [] ->
           driver w' = driver w).
Proof.
  unfold _frida_callback, bind, lift, ret, raise, log_error, call_notify.
  repeat match goal with
         | |- context [match py_getitem ?v ?k with _ => _ end] =>
             destruct (py_getitem v k)
         | |- context [match py_get ?v ?k ?d with _ => _ end] =>
             destruct (py_get v k d)
         | |- context [match py_int16 ?v with _ => _ end] =>
             destruct (py_int16 v)
         | |- context [if py_eq_str ?v ?s then _ else _] =>
             destruct (py_eq_str v s)
         | |- context [notify ?b ?o ?d] =>
             destruct (notify b o d) as [[[] | ?] ?]
         end;
    cbn [snd fst agent exported_functions_cache heap trace driver emit
         set_driver];
    (split; [reflexivity |]); (split; [reflexivity |]);
    (split; [reflexivity |]);
    first
      [ exists []; split; [by rewrite app_nil_r |];
        split; [reflexivity |]; split; [simpl; lia | reflexivity]
      | eexists; split; [reflexivity |];
        split; [reflexivity |]; split; [simpl; lia |];
        simpl; first [reflexivity | discriminate]
      | eexists; split; [by rewrite <- app_assoc |];
        split; [reflexivity |]; split; [simpl; lia | reflexivity] ].
Qed.

End CallbackMore.

Section TranslationMore.

Context {Agent Driver : Type} `{FridaRpc Agent}.

Abbreviation World := (World Agent Driver).

(** X21. [query_memory_protection] and [write_process_memory] raise only
    when their remote call raised, and then either their own error kind
    (for an [RPCException]) or the engine's exception unchanged; they
    never raise a bare [RPCException] nor another operation's kind. *)
Theorem query_write_raise_only address data (w : World) e :
  (fst (query_memory_protection address w) = Raised e ->
   exists f,
     fst (rpc_query_memory_protection address (agent w)) = inl f
     /\ e = translated QueryProcessMemoryError f)
  /\ (fst (write_process_memory address data w) = Raised e ->
      exists f,
        fst (rpc_write_process_memory address data (agent w)) = inl f
        /\ e = translated WriteProcessMemoryError f)
  /\ (forall f, is_RPCException (translated QueryProcessMemoryError f) = false
                /\ is_RPCException (translated WriteProcessMemoryError f)
                   = false).
Proof.
  rewrite query_memory_protection_run, write_process_memory_run. simpl.
  split; [| split].
  - destruct (rpc_query_memory_protection address (agent w))
      as [[[args | msg] | p] a']; simpl; intros Hq;
      try discriminate Hq; injection Hq as <-; eexists; by split.
  - destruct (rpc_write_process_memory address data (agent w))
      as [[[args | msg] | p] a']; simpl; intros Hq;
      try discriminate Hq; injection Hq as <-; eexists; by split.
  - intros [args | msg]; by split.
Qed.

End TranslationMore.

Lemma frida_callback_malformed_envelope_witness :
  _frida_callback FakeAgent.record_oep message_without_type None
                  FakeAgent.world0
  = (Raised (KeyError "type"), FakeAgent.world0).
Proof.
  apply (frida_callback_malformed_envelope FakeAgent.record_oep
           message_without_type None FakeAgent.world0 (KeyError "type")).
  left. reflexivity.
Defined.

Lemma frida_callback_bad_oep_payload_witness :
  _frida_callback FakeAgent.record_oep oep_message_bad_oep None
                  FakeAgent.world0
  = (Raised ValueError, FakeAgent.world0).
Proof.
  apply (frida_callback_bad_oep_payload FakeAgent.record_oep
           oep_message_bad_oep None FakeAgent.world0
           (PyDict [("event", PyStr "oep_reached");
                    ("BASE", PyStr "0x1000"); ("OEP", PyStr "entry")])
           ValueError);
    try reflexivity.
  right. right. exists (PyStr "0x1000"), 4096.
  split; [reflexivity |]. split; [reflexivity |].
  right. exists (PyStr "entry"). repeat split.
Defined.

Lemma frida_callback_callback_raises_witness :
  exists w',
    _frida_callback failing_oep oep_message None FakeAgent.world0
    = (Raised TypeError, w')
    /\ trace w' = [Notify 4096 4660]
    /\ driver w' = [(4096, 4660)].
Proof.
  eexists. split.
  - apply (frida_callback_callback_raises failing_oep oep_message None
             FakeAgent.world0
             (PyDict [("event", PyStr "oep_reached");
                      ("BASE", PyStr "0x1000"); ("OEP", PyStr "0x1234")])
             "0x1000" "0x1234" TypeError [(4096, 4660)]);
      reflexivity.
  - split; reflexivity.
Defined.

Lemma query_write_raise_only_witness :
  exists f,
    fst (rpc_query_memory_protection 4096 FakePeer.destroyed_peer) = inl f
    /\ Frida FakePeer.gone = translated QueryProcessMemoryError f.
Proof.
  destruct (query_write_raise_only 4096 [144]
              (fake_session FakePeer.destroyed_peer FakeEngine.init)
              (Frida FakePeer.gone)) as (Hq & _).
  exact (Hq eq_refl).
Defined.

(** ** The rest of the controller *)

Section SessionTheorems.

Context {Agent Engine User : Type}
        `{FridaRpcMore Agent} `{FridaEngine Engine}.

Abbreviation World := (World Agent (Env Engine User)).

Lemma remote_more_run {A} c (proc : Agent -> reply A * Agent) (w : World) :
  remote_more c proc w
  = (match fst (proc (agent w)) with
     | inl f => Raised (Frida f)
     | inr v => Ok v
     end,
     logged [c] (engine (driver w)) (snd (proc (agent w))) w).
Proof.
  unfold remote_more. destruct (proc (agent w)) as [[f | v] a']; reflexivity.
Qed.

Lemma engine_do_run {A} c (op : Engine -> res A * Engine) (w : World) :
  engine_do c op w
  = (fst (op (engine (driver w))),
     logged [c] (snd (op (engine (driver w)))) (agent w) w).
Proof.
  unfold engine_do. destruct (op (engine (driver w))) as [r e']; reflexivity.
Qed.

Lemma logged_logged cs1 cs2 e1 e2 a1 a2 (w : World) :
  logged cs2 e2 a2 (logged cs1 e1 a1 w) = logged (cs1 ++ cs2) e2 a2 w.
Proof. unfold logged; simpl. by rewrite app_assoc. Qed.

(** X22. [allocate_process_memory] makes one remote call and returns the
    agent's hexadecimal answer as the unsigned integer it denotes. *)
Theorem allocate_process_memory_address size near (w : World) s a' :
  rpc_allocate_process_memory size near (agent w) = (inr (PyStr s), a') ->
  is_hex_string s = true ->
  allocate_process_memory size near w
  = (Ok (hex_value s),
     logged [CallAllocateProcessMemory size near] (engine (driver w)) a' w)
  /\ 0 <= hex_value s.
Proof.
  intros Hr Hhex. destruct (parse_hex_hex_string s Hhex) as [Hp Hnn].
  split; [| exact Hnn].
  unfold allocate_process_memory, bind, lift.
  rewrite remote_more_run, Hr. simpl. by rewrite Hp.
Qed.

(** X23. When the agent's answer to an allocation is ASCII text that is
    not a base-16 literal, [allocate_process_memory] raises [ValueError]
    (or [TypeError] for an answer that is not a string) after the
    allocation call has been made; the exception is none of the
    memory-error kinds. *)
Theorem allocate_process_memory_unreadable size near (w : World) v a' e :
  rpc_allocate_process_memory size near (agent w) = (inr v, a') ->
  ascii_literal v = true ->
  py_int16 v = Raised e ->
  allocate_process_memory size near w
  = (Raised e,
     logged [CallAllocateProcessMemory size near] (engine (driver w)) a' w)
  /\ (e = ValueError \/ e = TypeError)
  /\ is_memory_error e = false.
Proof.
  intros Hr _ He.
  assert (e = ValueError \/ e = TypeError) as Hkind.
  { destruct v; simpl in He; try (right; congruence).
    destruct (parse_hex s); [discriminate | left; congruence]. }
  split; [| split; [exact Hkind | by destruct Hkind as [-> | ->]]].
  unfold allocate_process_memory, bind, lift.
  rewrite remote_more_run, Hr. simpl. by rewrite He.
Qed.

(** X24. [find_module_by_address], [enumerate_modules],
    [allocate_process_memory] and [set_memory_protection] make exactly one
    remote call each, and whatever they raise is never one of the three
    memory-error kinds: a fault of the channel reaches the caller as the
    engine's own exception. *)
Theorem forwarders_raise_no_memory_error address size near protection
    (w : World) e :
  (fst (find_module_by_address address w) = Raised e ->
   exists f,
     e = Frida f
     /\ fst (rpc_find_module_by_address address (agent w)) = inl f)
  /\ (fst (enumerate_modules w) = Raised e ->
      exists f,
        e = Frida f /\ fst (rpc_enumerate_modules (agent w)) = inl f)
  /\ (fst (set_memory_protection address size protection w) = Raised e ->
      exists f,
        e = Frida f
        /\ fst (rpc_set_memory_protection address size protection (agent w))
           = inl f)
  /\ (fst (allocate_process_memory size near w) = Raised e ->
      is_memory_error e = false)
  /\ calls (driver (snd (find_module_by_address address w)))
     = calls (driver w) ++ [CallFindModuleByAddress address]
  /\ calls (driver (snd (enumerate_modules w)))
     = calls (driver w) ++ [CallEnumerateModules]
  /\ calls (driver (snd (set_memory_protection address size protection w)))
     = calls (driver w) ++ [CallSetMemoryProtection address size protection]
  /\ calls (driver (snd (allocate_process_memory size near w)))
     = calls (driver w) ++ [CallAllocateProcessMemory size near].
Proof.
  unfold find_module_by_address, enumerate_modules, set_memory_protection,
    allocate_process_memory, bind, ret, lift.
  rewrite !remote_more_run.
  destruct (rpc_find_module_by_address address (agent w)) as [[f1 | v1] a1];
  destruct (rpc_enumerate_modules (agent w)) as [[f2 | v2] a2];
  destruct (rpc_set_memory_protection address size protection (agent w))
    as [[f3 | v3] a3];
  destruct (rpc_allocate_process_memory size near (agent w))
    as [[f4 | v4] a4];
    simpl;
    repeat match goal with |- _ /\ _ => split end;
    try reflexivity;
    try (intros Heq;
         first [ discriminate Heq
               | injection Heq as <-; first [reflexivity | by eexists] ]);
    try (destruct v4 as [| | | s | |]; simpl;
         try (intros Heq; by injection Heq as <-);
         destruct (parse_hex s); intros Heq;
         first [discriminate Heq | by injection Heq as <-]).
Qed.

(** X25. When the agent reports an architecture other than ["ia32"] and
    ["x64"], the constructor raises [ValueError] right after that first
    remote call: pointer size and page size are never asked for, and no
    controller exists. *)
Theorem init_unknown_architecture pid main_module_name frida_session
    frida_script (w : World) frida_arch a' :
  rpc_get_architecture (agent w) = (inr frida_arch, a') ->
  frida_arch <> "ia32" ->
  frida_arch <> "x64" ->
  __init__ pid main_module_name frida_session frida_script w
  = (Raised ValueError,
     logged [CallGetArchitecture] (engine (driver w)) a' w).
Proof.
  intros Hr H32 H64.
  unfold __init__, bind, lift. rewrite remote_more_run, Hr. simpl.
  unfold _str_to_architecture.
  apply String.eqb_neq in H32, H64. by rewrite H32, H64.
Qed.

(** X26. With a recognised architecture the constructor makes its three
    remote calls in the order architecture, pointer size, page size, and
    returns a controller holding what it was given and what the agent
    answered, with an unset export cache. *)
Theorem init_controller pid main_module_name frida_session frida_script
    (w : World) frida_arch arch a1 ps a2 pg a3 :
  rpc_get_architecture (agent w) = (inr frida_arch, a1) ->
  _str_to_architecture frida_arch = Ok arch ->
  rpc_get_pointer_size a1 = (inr ps, a2) ->
  rpc_get_page_size a2 = (inr pg, a3) ->
  exists w',
    __init__ pid main_module_name frida_session frida_script w
    = (Ok (mkFridaProcessController pid main_module_name arch ps pg
                                    frida_script frida_session), w')
    /\ calls (driver w')
       = calls (driver w)
         ++ [CallGetArchitecture; CallGetPointerSize; CallGetPageSize]
    /\ agent w' = a3
    /\ exported_functions_cache w' = None
    /\ trace w' = trace w
    /\ heap w' = heap w.
Proof.
  intros Hr Harch Hps Hpg.
  unfold __init__, bind, lift, set_exported_functions_cache, ret.
  rewrite remote_more_run, Hr. simpl. rewrite Harch.
  rewrite remote_more_run. simpl. rewrite Hps.
  rewrite remote_more_run. simpl. rewrite Hpg. simpl.
  eexists. split; [reflexivity |]. simpl.
  repeat split. by rewrite <- !app_assoc.
Qed.

(** X27. [terminate_process] kills the process and then detaches the
    session, in that order; when killing raises, the exception reaches the
    caller and the session is not detached. *)
Theorem terminate_process_order (self : FridaProcessController) (w : World) :
  (forall x e1,
     frida_kill (pid self) (engine (driver w)) = (Raised x, e1) ->
     terminate_process self w
     = (Raised x, logged [Kill (pid self)] e1 (agent w) w))
  /\ (forall e1 r e2,
        frida_kill (pid self) (engine (driver w)) = (Ok tt, e1) ->
        session_detach (_frida_session self) e1 = (r, e2) ->
        terminate_process self w
        = (r, logged [Kill (pid self); Detach (_frida_session self)] e2
                     (agent w) w)).
Proof.
  split.
  - intros x e1 Hk. unfold terminate_process, bind.
    by rewrite engine_do_run, Hk.
  - intros e1 r e2 Hk Hd. unfold terminate_process, bind.
    rewrite engine_do_run, Hk. simpl. rewrite engine_do_run. simpl.
    rewrite Hd. simpl. f_equal. unfold logged. simpl.
    by rewrite <- app_assoc.
Qed.

End SessionTheorems.

(** ** The session bootstrap *)

Ltac absent_from_calls Hin :=
  repeat (apply elem_of_cons in Hin as [Hin | Hin]; [discriminate Hin |]);
  by apply elem_of_nil in Hin.

Section BootstrapTheorems.

Context {Agent Engine User : Type}
        `{FridaRpcMore Agent} `{FridaEngine Engine}.

Abbreviation World := (World Agent (Env Engine User)).

(** X28. When every step succeeds, [spawn_and_instrument] spawns the
    program, attaches, creates the script from the packaged source,
    installs the message handler before loading the script, constructs the
    controller, arms the tracing for the executable's file name and only
    then resumes the process; the controller it returns holds the spawned
    process id, that file name, and the session and script it created. The
    bootstrap itself never invokes the callback. *)
Theorem spawn_and_instrument_sequence exe_path
    (notify : Z -> Z -> Env Engine User -> res unit * Env Engine User)
    (w : World) spawned e1 session e2 frida_js e3 script e4 e5 e6
    frida_arch arch a1 ps a2 pg a3 a4 e7 :
  frida_spawn [path_str exe_path] (engine (driver w)) = (Ok spawned, e1) ->
  frida_attach spawned e1 = (Ok session, e2) ->
  resources_open_text "unlicense.resources" "frida.js" e2
    = (Ok frida_js, e3) ->
  session_create_script session frida_js e3 = (Ok script, e4) ->
  script_on script "message" e4 = (Ok tt, e5) ->
  script_load script e5 = (Ok tt, e6) ->
  rpc_get_architecture (agent w) = (inr frida_arch, a1) ->
  _str_to_architecture frida_arch = Ok arch ->
  rpc_get_pointer_size a1 = (inr ps, a2) ->
  rpc_get_page_size a2 = (inr pg, a3) ->
  rpc_setup_oep_tracing (path_name exe_path) a3 = (inr tt, a4) ->
  frida_resume spawned e6 = (Ok tt, e7) ->
  exists w',
    spawn_and_instrument exe_path notify w
    = (Ok (mkFridaProcessController spawned (path_name exe_path) arch ps pg
                                    script session), w')
    /\ calls (driver w')
       = calls (driver w)
         ++ [Spawn [path_str exe_path]; Attach spawned;
             OpenText "unlicense.resources" "frida.js";
             CreateScript session frida_js; ScriptOn script "message";
             ScriptLoad script; CallGetArchitecture; CallGetPointerSize;
             CallGetPageSize; CallSetupOepTracing (path_name exe_path);
             Resume spawned]
    /\ engine (driver w') = e7
    /\ agent w' = a4
    /\ user (driver w') = user (driver w)
    /\ exported_functions_cache w' = None
    /\ trace w' = trace w.
Proof.
  intros Hspawn Hattach Hjs Hscript Hon Hload Harch Htr Hps Hpg Hsetup
    Hresume.
  unfold spawn_and_instrument, __init__, bind, lift, ret,
    set_exported_functions_cache, engine_do, remote_more, log_call.
  rewrite Hspawn. cbn [driver set_driver engine agent set_agent calls user].
  rewrite Hattach. cbn [driver set_driver engine agent set_agent calls user].
  rewrite Hjs. cbn [driver set_driver engine agent set_agent calls user].
  rewrite Hscript. cbn [driver set_driver engine agent set_agent calls user].
  rewrite Hon. cbn [driver set_driver engine agent set_agent calls user].
  rewrite Hload. cbn [driver set_driver engine agent set_agent calls user].
  rewrite Harch. cbn [driver set_driver engine agent set_agent calls user].
  rewrite Htr.
  rewrite Hps. cbn [driver set_driver engine agent set_agent calls user].
  rewrite Hpg. cbn [driver set_driver engine agent set_agent calls user].
  rewrite Hsetup. cbn [driver set_driver engine agent set_agent calls user].
  rewrite Hresume.
  eexists. split; [reflexivity |].
  cbn [driver set_driver engine agent set_agent calls user
       exported_functions_cache trace].
  repeat split. by rewrite <- !app_assoc.
Qed.

(** X29. However a run of [spawn_and_instrument] ends, the process is
    resumed at most once, as the very last call, and only after the
    tracing setup has been called for the executable's file name; no
    controller is returned unless the process was resumed; the callback
    is never invoked and no operation of the bridge is used. *)
Theorem spawn_and_instrument_resumes_last exe_path
    (notify : Z -> Z -> Env Engine User -> res unit * Env Engine User)
    (w : World) :
  let run := spawn_and_instrument exe_path notify w in
  exists new,
    calls (driver (snd run)) = calls (driver w) ++ new
    /\ user (driver (snd run)) = user (driver w)
    /\ trace (snd run) = trace w
    /\ (forall p,
          Resume p ∈ new ->
          exists before,
            new = before ++ [Resume p]
            /\ CallSetupOepTracing (path_name exe_path) ∈ before
            /\ forall q, Resume q ∉ before)
    /\ (forall c,
          fst run = Ok c ->
          Resume (pid c) ∈ new /\ main_module_name c = path_name exe_path).
Proof.
  unfold spawn_and_instrument, __init__, bind, lift, ret,
    set_exported_functions_cache, engine_do, remote_more, log_call.
  repeat (cbn [driver set_driver engine agent set_agent calls user];
          match goal with
          | |- context [match _str_to_architecture ?s with _ => _ end] =>
              destruct (_str_to_architecture s)
          | |- context [match ?x with pair _ _ => _ end] =>
              lazymatch x with
              | pair _ _ => fail
              | context [match _ with pair _ _ => _ end] => fail
              | _ => destruct x as [[? | ?] ?]
              end
          end);
    cbn [driver set_driver engine agent set_agent calls user fst snd
         exported_functions_cache trace];
    (eexists; split; [rewrite <- ?app_assoc; simpl; reflexivity |]);
    (split; [reflexivity |]); (split; [reflexivity |]);
    (split;
     [ intros p Hin;
       first
         [ absent_from_calls Hin
         | repeat (apply elem_of_cons in Hin as [Hin | Hin];
                   [try discriminate Hin |]);
           [injection Hin as -> | by apply elem_of_nil in Hin];
           eexists (_ :: _ :: _ :: _ :: _ :: _ :: _ :: _ :: _ :: [_]);
           split; [reflexivity |];
           split; [set_solver |];
           intros q Hq; absent_from_calls Hq ]
     | intros c Hc;
       first [ discriminate Hc
             | injection Hc as <-; split; [set_solver | reflexivity] ] ]).
Qed.

End BootstrapTheorems.

Lemma allocate_process_memory_address_witness :
  fst (allocate_process_memory 4096 0
         (fake_session FakePeer.init FakeEngine.init))
  = Ok 8384512.
Proof.
  refine (f_equal fst
            (proj1 (allocate_process_memory_address 4096 0
                      (fake_session FakePeer.init FakeEngine.init)
                      "0x7ff000" FakePeer.init _ _)));
    reflexivity.
Defined.

Lemma allocate_process_memory_unreadable_witness :
  exists w',
    allocate_process_memory 4096 0
      (fake_session FakePeer.confused_peer FakeEngine.init)
    = (Raised ValueError, w')
    /\ calls (driver w') = [CallAllocateProcessMemory 4096 0].
Proof.
  eexists. split.
  - apply (allocate_process_memory_unreadable 4096 0
             (fake_session FakePeer.confused_peer FakeEngine.init)
             (PyStr "nowhere") FakePeer.confused_peer ValueError);
      reflexivity.
  - reflexivity.
Defined.

Lemma forwarders_raise_no_memory_error_witness :
  exists f,
    Frida FakePeer.gone = Frida f
    /\ fst (rpc_find_module_by_address 4096 FakePeer.destroyed_peer) = inl f.
Proof.
  destruct (forwarders_raise_no_memory_error 4096 16 0 "rwx"
              (fake_session FakePeer.destroyed_peer FakeEngine.init)
              (Frida FakePeer.gone)) as (Hfind & _).
  exact (Hfind eq_refl).
Defined.

Lemma init_unknown_architecture_witness :
  exists w',
    __init__ 4242 "packed.exe" 1 2
      (fake_session FakePeer.arm_peer FakeEngine.init)
    = (Raised ValueError, w')
    /\ calls (driver w') = [CallGetArchitecture].
Proof.
  eexists. split.
  - apply (init_unknown_architecture 4242 "packed.exe" 1 2
             (fake_session FakePeer.arm_peer FakeEngine.init)
             "arm64" FakePeer.arm_peer);
      [reflexivity | discriminate | discriminate].
  - reflexivity.
Defined.

Lemma init_controller_witness :
  exists w',
    __init__ 4242 "packed.exe" 1 2
      (fake_session FakePeer.init FakeEngine.init)
    = (Ok fake_controller, w')
    /\ calls (driver w')
       = [CallGetArchitecture; CallGetPointerSize; CallGetPageSize].
Proof.
  destruct (init_controller 4242 "packed.exe" 1 2
              (fake_session FakePeer.init FakeEngine.init)
              "x64" X86_64 FakePeer.init 8 FakePeer.init 4096 FakePeer.init)
    as (w' & Hrun & Hcalls & _); try reflexivity.
  exists w'. split; [exact Hrun | exact Hcalls].
Defined.

Lemma terminate_process_order_witness :
  exists w',
    terminate_process fake_controller
      (fake_session FakePeer.init (FakeEngine.mkState false true []))
    = (Raised FakeEngine.no_process, w')
    /\ calls (driver w') = [Kill 4242].
Proof.
  destruct (terminate_process_order fake_controller
              (fake_session FakePeer.init (FakeEngine.mkState false true [])))
    as (Hfail & _).
  eexists. split.
  - apply (Hfail FakeEngine.no_process (FakeEngine.mkState false true [])).
    reflexivity.
  - reflexivity.
Defined.

Lemma spawn_and_instrument_sequence_witness :
  exists w',
    spawn_and_instrument packed_exe ignore_oep
      (fake_session FakePeer.init FakeEngine.init)
    = (Ok fake_controller, w')
    /\ FakeEngine.resumed (engine (driver w')) = [4242].
Proof.
  destruct (spawn_and_instrument_sequence packed_exe ignore_oep
              (fake_session FakePeer.init FakeEngine.init)
              4242 FakeEngine.init 1 FakeEngine.init "rpc.exports = {};"
              FakeEngine.init 2 FakeEngine.init FakeEngine.init
              FakeEngine.init "x64" X86_64 FakePeer.init 8 FakePeer.init
              4096 FakePeer.init FakePeer.init
              (FakeEngine.mkState false false [4242]))
    as (w' & Hrun & _ & Hengine & _); try reflexivity.
  exists w'. split; [exact Hrun | by rewrite Hengine].
Defined.

Example fake_spawn_missing_program :
  let run := spawn_and_instrument packed_exe ignore_oep
               (fake_session FakePeer.init (FakeEngine.mkState true false []))
  in
  fst run = Raised FakeEngine.not_found
  /\ calls (driver (snd run)) = [Spawn ["C:\samples\packed.exe"]].
Proof. split; reflexivity. Qed.

Example fake_spawn_unknown_architecture :
  let run := spawn_and_instrument packed_exe ignore_oep
               (fake_session FakePeer.arm_peer FakeEngine.init) in
  fst run = Raised ValueError
  /\ FakeEngine.resumed (engine (driver (snd run))) = [].
Proof. split; reflexivity. Qed.
